(** * CodeMedic: the message handler of [extension.js], embedded in Rocq

    The extension keeps two module-level variables ([history] and
    [pendingFixes]), reads and writes workspace files through the VS Code
    API and calls a generative model.  The embedding below follows
    [src/extension.js] function by function:

    - JavaScript values that come out of [JSON.parse] are the inductive
      type [json]; [undefined] is [None] in [jsval];
    - the module-level variables, the workspace files and the messages
      posted to the webview form the record [state];
    - code that throws or awaits runs in the monad [M], a state monad with
      exceptions in which the effects made before a [throw] persist, as
      they do in JavaScript;
    - what the host decides (configuration, search results, the model's
      answer, I/O faults) is the record [world], one per handled message;
      the pure services of the JavaScript engine and of the VS Code API
      ([toLowerCase], [JSON.parse], [Uri.joinPath]) are the class [Engine].

    Messages are handled one at a time, each to completion.  Strings are
    byte strings (the UTF-8 encoding of the JavaScript text). *)

From Stdlib Require Import Ascii String.
From stdpp Require Import base option list strings gmap.

Local Open Scope string_scope.
Local Open Scope list_scope.
Set Warnings "-register-all".
Import ListNotations.

(** ** JavaScript values *)

Module JS.

(** A JSON number is observed by the program in three ways only: its
    truthiness, the test [=== 0] and its conversion to text.  For a number
    produced by [JSON.parse] the first two coincide. *)
Record number := Number { isZero : bool; numText : string }.

Inductive json :=
  | JNull
  | JBool (b : bool)
  | JNum (n : number)
  | JStr (s : string)
  | JArr (items : list json)
  | JObj (props : list (string * json)).

(** A value or [undefined]. *)
Definition jsval := option json.

(** Own property of an object literal, first binding wins. *)
Fixpoint lookupProp (k : string) (props : list (string * json)) : jsval :=
  match props with
  | [] => None
  | (k', v) :: rest => if String.eqb k k' then Some v else lookupProp k rest
  end.

(** [ToBoolean] *)
Definition truthy (v : jsval) : bool :=
  match v with
  | None => false
  | Some JNull => false
  | Some (JBool b) => b
  | Some (JNum n) => negb (isZero n)
  | Some (JStr s) => negb (String.eqb s "")
  | Some (JArr _) => true
  | Some (JObj _) => true
  end.

(** [typeof v === 'string'] *)
Definition isString (v : jsval) : bool :=
  match v with
  | Some (JStr _) => true
  | _ => false
  end.

(** [Array.prototype.join] on already converted elements. *)
Fixpoint join (sep : string) (parts : list string) : string :=
  match parts with
  | [] => ""
  | [p] => p
  | p :: rest => p +:+ sep +:+ join sep rest
  end.

(** [String(v)] for a JSON value, as a template literal computes it. *)
Fixpoint toStr (v : json) : string :=
  match v with
  | JNull => "null"
  | JBool true => "true"
  | JBool false => "false"
  | JNum n => numText n
  | JStr s => s
  | JArr items =>
      join "," (List.map (fun x => match x with JNull => "" | _ => toStr x end) items)
  | JObj _ => "[object Object]"
  end.

Definition toStrV (v : jsval) : string :=
  match v with
  | None => "undefined"
  | Some j => toStr j
  end.

(** The element text [Array.prototype.join] uses: [null] gives the empty
    string. *)
Definition joinItem (x : json) : string :=
  match x with
  | JNull => ""
  | _ => toStr x
  end.

(** ** Strings *)

Fixpoint isPrefix (p s : string) : bool :=
  match p, s with
  | EmptyString, _ => true
  | String a p', String b s' => if Ascii.eqb a b then isPrefix p' s' else false
  | String _ _, EmptyString => false
  end.

(** [hay.includes(needle)] *)
Fixpoint includes (needle hay : string) : bool :=
  isPrefix needle hay ||
  match hay with
  | EmptyString => false
  | String _ hay' => includes needle hay'
  end.

(** [s.indexOf(c)] for a one-character [c]; [None] is [-1]. *)
Fixpoint indexOf (c : ascii) (s : string) : option nat :=
  match s with
  | EmptyString => None
  | String a s' => if Ascii.eqb a c then Some 0 else S <$> indexOf c s'
  end.

(** [s.lastIndexOf(c)] *)
Fixpoint lastIndexOf (c : ascii) (s : string) : option nat :=
  match s with
  | EmptyString => None
  | String a s' =>
      match lastIndexOf c s' with
      | Some i => Some (S i)
      | None => if Ascii.eqb a c then Some 0 else None
      end
  end.

(** [s.slice(from, to)] for non-negative indices. *)
Definition slice (from to : nat) (s : string) : string :=
  String.substring from (to - from) s.

(** [s.split(/[\\/]/).pop()]: the text after the last slash or backslash. *)
Fixpoint lastSegment (acc s : string) : string :=
  match s with
  | EmptyString => acc
  | String a s' =>
      if Ascii.eqb a "/" || Ascii.eqb a "\" then lastSegment "" s'
      else lastSegment (acc +:+ String a "") s'
  end.

End JS.

Export JS.

(** ** Exceptions, state and the host *)

(** Every value the program throws or catches is an [Error] object; the
    handler reads only its [message].  [TypeError] marks the errors the
    engine raises itself (here with the texts of V8). *)
Inductive exn :=
  | Error (msg : string)
  | TypeError (msg : string).

Definition message (e : exn) : string :=
  match e with
  | Error m => m
  | TypeError m => m
  end.

Inductive role := user | model.

(** One entry of [history]: [{ role, parts: [{ text }] }]. *)
Record turn := Turn { role_of : role; parts : string }.

(** The message the webview sends: [{ type, text }]. *)
Record webviewMessage := Message { type : string; text : string }.

(** The module-level variables [currentPanel], [history] and
    [pendingFixes] ([JNull] is [null]), the files of the workspace by URI,
    and the texts posted to the webview so far, oldest first ([None] is a
    reply whose text is [undefined]). *)
Record state := State {
  currentPanel : bool;
  history : list turn;
  pendingFixes : json;
  fs : gmap string string;
  posted : list (option string)
}.

(** What the host answers while one message is handled. *)
Record world := World {
  (* [config.get('apiKey')] *)
  apiKey : option string;
  (* the error of [import('@google/genai')], if it fails *)
  importGenAI : option exn;
  (* [vscode.workspace.findFiles(...)]: the URIs found *)
  findFiles : exn + list string;
  (* a fault of [fs.readFile] on a URI, and its error for a missing file *)
  readFault : string -> option exn;
  noSuchFile : string -> exn;
  (* [ai.models.generateContent({ ..., contents })] followed by
     [result.candidates?.[0]?.content?.parts?.[0]?.text] *)
  generateContent : list turn -> exn + option string;
  (* [vscode.workspace.workspaceFolders?.[0]], as its URI *)
  workspaceFolder : option string;
  (* a fault of [fs.writeFile] on a URI *)
  writeFault : string -> option exn
}.

(** Pure services of the JavaScript engine and of the VS Code API. *)
Class Engine := {
  (* [String.prototype.toLowerCase] *)
  toLowerCase : string -> string;
  (* [JSON.parse]; [None] when it throws a SyntaxError *)
  JSON_parse : string -> option json;
  (* [vscode.Uri.joinPath(base, segment)] for any value of [segment] *)
  joinPath : string -> jsval -> exn + string
}.

(** ** The monad of the handler *)

Definition M (A : Type) : Type := state -> (exn + A) * state.

Definition ret {A} (a : A) : M A := fun st => (inr a, st).

Definition throw {A} (e : exn) : M A := fun st => (inl e, st).

Definition bind {A B} (m : M A) (k : A -> M B) : M B :=
  fun st =>
    match m st with
    | (inl e, st') => (inl e, st')
    | (inr a, st') => k a st'
    end.

(** [try { body } catch (err) { handler }]: the handler starts from the
    state the body reached when it threw. *)
Definition tryCatch {A} (body : M A) (handler : exn -> M A) : M A :=
  fun st =>
    match body st with
    | (inl e, st') => handler e st'
    | (inr a, st') => (inr a, st')
    end.

Definition lift {A} (r : exn + A) : M A :=
  match r with
  | inl e => throw e
  | inr a => ret a
  end.

Definition get : M state := fun st => (inr st, st).

Definition modify (f : state -> state) : M unit := fun st => (inr tt, f st).

Declare Scope js_scope.
Delimit Scope js_scope with js.
Notation "x <- m ;; k" := (bind m (fun x => k))
  (at level 100, m at next level, right associativity) : js_scope.
Notation "m ;;; k" := (bind m (fun _ => k))
  (at level 100, right associativity) : js_scope.
Local Open Scope js_scope.

(** [for (const x of l) { await f(x) }] *)
Fixpoint forOf {A} (f : A -> M unit) (l : list A) : M unit :=
  match l with
  | [] => ret tt
  | x :: rest => f x ;;; forOf f rest
  end.

(** The same loop when the body pushes a value on a result array. *)
Fixpoint forPush {A B} (f : A -> M B) (l : list A) : M (list B) :=
  match l with
  | [] => ret []
  | x :: rest => y <- f x ;; ys <- forPush f rest ;; ret (y :: ys)
  end.

(** [arr.map(f)] for a callback that may throw. *)
Fixpoint mapE {A B} (f : A -> exn + B) (l : list A) : exn + list B :=
  match l with
  | [] => inr []
  | x :: rest =>
      match f x with
      | inl e => inl e
      | inr y =>
          match mapE f rest with
          | inl e => inl e
          | inr ys => inr (y :: ys)
          end
      end
  end.

(** State updates. *)
Definition setHistory (h : list turn) : M unit :=
  modify (fun st => State (currentPanel st) h (pendingFixes st) (fs st) (posted st)).

Definition setPendingFixes (p : json) : M unit :=
  modify (fun st => State (currentPanel st) (history st) p (fs st) (posted st)).

Definition setFs (f : gmap string string) : M unit :=
  modify (fun st => State (currentPanel st) (history st) (pendingFixes st) f (posted st)).

(** [panel.webview.postMessage({ type: 'botReply', text })] *)
Definition postMessage (t : option string) : M unit :=
  modify (fun st =>
    State (currentPanel st) (history st) (pendingFixes st) (fs st) (posted st ++ [t])).

(** [history.push(t)] *)
Definition historyPush (t : turn) : M unit :=
  st <- get ;; setHistory (history st ++ [t]).

(** ** Property access on values *)

(** [v.k] for the property names the program reads from parsed data
    ([files], [path], [issues], [fixedCode]), none of which a built-in
    prototype defines: reading from [null] throws, an object answers with
    its own property, every other value with [undefined]. *)
Definition prop (v : json) (k : string) : exn + jsval :=
  match v with
  | JNull =>
      inl (TypeError ("Cannot read properties of null (reading '" +:+ k +:+ "')"))
  | JObj props => inr (lookupProp k props)
  | _ => inr None
  end.

(** [files.length === 0] for a truthy [files]. *)
Definition lengthIsZero (files : json) : bool :=
  match files with
  | JArr items => match items with [] => true | _ => false end
  | JStr s => String.eqb s ""
  | JObj props =>
      match lookupProp "length" props with
      | Some (JNum n) => isZero n
      | _ => false
      end
  | _ => false
  end.

(** The characters of a string, as the string iterator yields them (one
    per byte here; the program only uses that each of them is a string). *)
Fixpoint chars (s : string) : list json :=
  match s with
  | EmptyString => []
  | String a s' => JStr (String a "") :: chars s'
  end.

(** The elements [for (... of v)] visits. *)
Definition iterate (v : jsval) : exn + list json :=
  match v with
  | Some (JArr items) => inr items
  | Some (JStr s) => inr (chars s)
  | _ => inl (TypeError "data.files is not iterable")
  end.

(** The text of a value already known to be a string. *)
Definition asText (v : jsval) : string :=
  match v with
  | Some (JStr s) => s
  | _ => ""
  end.

(** ** The extension *)

Definition MAX_TURNS : nat := 6.

(** [history.splice(0, n)] leaves the list without its first [n] entries. *)
Definition trimmed (h : list turn) : list turn :=
  let maxEntries := MAX_TURNS * 2 in
  if Nat.ltb maxEntries (length h) then drop (length h - maxEntries) h else h.

Definition trimHistory : M unit :=
  st <- get ;; setHistory (trimmed (history st)).

Definition dq : string := String (ascii_of_nat 34) EmptyString.
Definition nl : string := String (ascii_of_nat 10) EmptyString.

Section Extension.

Context `{engine : Engine}.

Definition isCodeReviewRequest (text : string) : bool :=
  let t := toLowerCase text in
  includes "review" t ||
  includes "analyse" t ||
  includes "analyze" t ||
  includes "check" t ||
  includes "bug" t ||
  includes "issue" t ||
  includes "fix" t ||
  includes "correct" t ||
  includes "improve" t ||
  includes "code" t && includes "file" t.

(** [vscode.workspace.fs.readFile(uri)], decoded as UTF-8. *)
Definition readFile (w : world) (uri : string) : M string :=
  match readFault w uri with
  | Some e => throw e
  | None =>
      st <- get ;;
      match fs st !! uri with
      | Some content => ret content
      | None => throw (noSuchFile w uri)
      end
  end.

(** [vscode.workspace.fs.writeFile(uri, Buffer.from(content, 'utf8'))] *)
Definition writeFile (w : world) (uri content : string) : M unit :=
  match writeFault w uri with
  | Some e => throw e
  | None => st <- get ;; setFs (<[uri := content]> (fs st))
  end.

(** The files read for a review, as pairs [(path, content)]. *)
Definition readWorkspaceFiles (w : world) : M (list (string * string)) :=
  uris <- lift (findFiles w) ;;
  forPush (fun uri => data <- readFile w uri ;; ret (uri, data)) (take 10 uris).

Definition buildReviewPrompt (files : list (string * string)) : string :=
  join nl
    [ "";
      "You are a senior software engineer.";
      "";
      "RETURN ONLY VALID JSON.";
      "DO NOT add markdown.";
      "DO NOT add explanations.";
      "DO NOT wrap in ```.";
      "DO NOT add the word " +:+ dq +:+ "json" +:+ dq +:+ ".";
      "";
      "JSON SCHEMA (MUST MATCH EXACTLY):";
      "{";
      "  " +:+ dq +:+ "files" +:+ dq +:+ ": [";
      "    {";
      "      " +:+ dq +:+ "path" +:+ dq +:+ ": " +:+ dq +:+ "relative/path/to/file.js" +:+ dq +:+ ",";
      "      " +:+ dq +:+ "issues" +:+ dq +:+ ": [" +:+ dq +:+ "string" +:+ dq +:+ "],";
      "      " +:+ dq +:+ "fixedCode" +:+ dq +:+ ": " +:+ dq +:+ "FULL corrected file content" +:+ dq;
      "    }";
      "  ]";
      "}";
      "";
      "FILES:";
      join nl
        (List.map
           (fun f => nl +:+ "--- " +:+ fst f +:+ " ---" +:+ nl +:+ snd f +:+ nl)
           files);
      "" ].

Definition getGeminiClient (w : world) : M unit :=
  match apiKey w with
  | None | Some "" =>
      throw (Error "Gemini API key is not set. Please add it in CodeMedic settings.")
  | Some _ =>
      match importGenAI w with
      | Some e => throw e
      | None => ret tt
      end
  end.

Definition extractJson (text : option string) : exn + string :=
  match text with
  | None => inl (TypeError "Cannot read properties of undefined (reading 'indexOf')")
  | Some text =>
      match indexOf "{" text, lastIndexOf "}" text with
      | Some firstBrace, Some lastBrace => inr (slice firstBrace (lastBrace + 1) text)
      | _, _ => inl (Error "No JSON object found in response")
      end
  end.

(** One line of the summary, the callback of [fixes.files.map]. *)
Definition summaryLine (file : json) : exn + string :=
  match prop file "path" with
  | inl e => inl e
  | inr (Some (JStr path)) =>
      let fileName := lastSegment "" path in
      match prop file "issues" with
      | inl e => inl e
      | inr (Some (JArr issues)) =>
          inr ("• " +:+ fileName +:+ " – " +:+ join ", " (List.map joinItem (take 2 issues)))
      | inr (Some JNull) =>
          inl (TypeError "Cannot read properties of null (reading 'slice')")
      | inr None =>
          inl (TypeError "Cannot read properties of undefined (reading 'slice')")
      | inr (Some (JStr _)) =>
          inl (TypeError "file.issues.slice(...).join is not a function")
      | inr (Some _) => inl (TypeError "file.issues.slice is not a function")
      end
  | inr (Some JNull) => inl (TypeError "Cannot read properties of null (reading 'split')")
  | inr None => inl (TypeError "Cannot read properties of undefined (reading 'split')")
  | inr (Some _) => inl (TypeError "file.path.split is not a function")
  end.

Definition buildFixSummary (fixes : json) : exn + string :=
  match prop fixes "files" with
  | inl e => inl e
  | inr (Some (JArr files)) =>
      match mapE summaryLine files with
      | inl e => inl e
      | inr lines => inr (join nl lines)
      end
  | inr (Some JNull) => inl (TypeError "Cannot read properties of null (reading 'map')")
  | inr None => inl (TypeError "Cannot read properties of undefined (reading 'map')")
  | inr (Some _) => inl (TypeError "fixes.files.map is not a function")
  end.

(** The body of the loop of [applyFixes]. *)
Definition applyFix (w : world) (root : string) (file : json) : M unit :=
  fixedCode <- lift (prop file "fixedCode") ;;
  if negb (truthy fixedCode) || negb (isString fixedCode) then
    path <- lift (prop file "path") ;;
    throw (Error ("Invalid fixedCode for " +:+ toStrV path))
  else
    path <- lift (prop file "path") ;;
    uri <- lift (joinPath root path) ;;
    writeFile w uri (asText fixedCode).

Definition applyFixes (w : world) (data : json) : M unit :=
  match workspaceFolder w with
  | None => throw (Error "No workspace folder found.")
  | Some root =>
      files <- lift (prop data "files") ;;
      items <- lift (iterate files) ;;
      forOf (applyFix w root) items
  end.

(** [JSON.parse(s)]; the SyntaxError is only ever caught and dropped. *)
Definition parseJson (s : string) : exn + json :=
  match JSON_parse s with
  | Some v => inr v
  | None => inl (Error "Unexpected token in JSON")
  end.

(** [!files || files.length === 0] *)
Definition noFiles (files : jsval) : bool :=
  negb (truthy files) ||
  match files with
  | Some v => lengthIsZero v
  | None => false
  end.

(** The branch taken when [isCodeReviewRequest(message.text)] holds. *)
Definition reviewBranch (w : world) : M unit :=
  postMessage (Some "Checking your code, please wait...") ;;;
  files <- readWorkspaceFiles w ;;
  postMessage (Some "Reviewing workspace files...") ;;;
  match files with
  | [] => postMessage (Some "No supported code files found in this workspace.")
  | _ =>
      let prompt := buildReviewPrompt files in
      raw <- lift (generateContent w [Turn user prompt]) ;;
      tryCatch
        (cleanJson <- lift (extractJson raw) ;;
         parsed <- lift (parseJson cleanJson) ;;
         setPendingFixes parsed ;;;
         files <- lift (prop parsed "files") ;;
         if noFiles files then
           setPendingFixes JNull ;;;
           postMessage (Some "✅ No issues found. Your code looks good.")
         else
           postMessage
             (Some "I found issues and prepared fixes. Do you want me to apply them? (Yes / No)"))
        (fun _ => postMessage raw)
  end.

(** The branch of a confirmation ([yes] or [apply]) with fixes pending. *)
Definition applyBranch (w : world) : M unit :=
  st <- get ;;
  applyFixes w (pendingFixes st) ;;;
  st <- get ;;
  summary <- lift (buildFixSummary (pendingFixes st)) ;;
  postMessage
    (Some ("✅ Fixes applied successfully." +:+ nl +:+ nl +:+ "Summary:" +:+ nl +:+ summary)) ;;;
  setPendingFixes JNull.

(** The branch of a rejection ([no]) with fixes pending. *)
Definition rejectBranch : M unit :=
  setPendingFixes JNull ;;;
  postMessage (Some "Okay, fixes were not applied.").

(** Normal chat mode. *)
Definition chatBranch (w : world) (msg : webviewMessage) : M unit :=
  historyPush (Turn user (text msg)) ;;;
  st <- get ;;
  result <- lift (generateContent w (history st)) ;;
  let reply :=
    if truthy (JStr <$> result) then asText (JStr <$> result)
    else "Sorry, I could not generate a response." in
  historyPush (Turn model reply) ;;;
  trimHistory ;;;
  postMessage (Some reply).

(** The [try] block of the message handler. *)
Definition handleMessage (w : world) (msg : webviewMessage) : M unit :=
  getGeminiClient w ;;;
  if isCodeReviewRequest (text msg) then reviewBranch w
  else
    st <- get ;;
    if truthy (Some (pendingFixes st)) &&
       existsb (String.eqb (toLowerCase (text msg))) ["yes"; "apply"]
    then applyBranch w
    else if truthy (Some (pendingFixes st)) && String.eqb (toLowerCase (text msg)) "no"
    then rejectBranch
    else chatBranch w msg.

(** The [catch (err)] block of the message handler. *)
Definition reportError (err : exn) : M unit :=
  postMessage (Some ("⚠️ Error: " +:+ message err)).

(** The callback of [panel.webview.onDidReceiveMessage]. *)
Definition onDidReceiveMessage (w : world) (msg : webviewMessage) (st : state) : state :=
  if negb (String.eqb (type msg) "userMessage") then st
  else snd (tryCatch (handleMessage w msg) reportError st).

(** The callback of [panel.onDidDispose]. *)
Definition onDidDispose (st : state) : state :=
  State false [] (pendingFixes st) (fs st) (posted st).

(** A session: the messages handled one after the other, each with what
    the host answers at that time. *)
Fixpoint session (steps : list (world * webviewMessage)) (st : state) : state :=
  match steps with
  | [] => st
  | (w, msg) :: rest => session rest (onDidReceiveMessage w msg st)
  end.

End Extension.

(** ** The specification's vocabulary *)

(** The two states of the confirmation gate. *)
Inductive gate := Idle | AwaitingConfirmation.

Definition gateOf (st : state) : gate :=
  if truthy (Some (pendingFixes st)) then AwaitingConfirmation else Idle.

(** The keyword set of the intent classifier, as the specification lists it. *)
Definition reviewKeywords : list string :=
  ["review"; "analyse"; "analyze"; "check"; "bug"; "issue"; "fix"; "correct"; "improve"].

Inductive intent := review | chat.

(** The classifier in the specification's words, over the lowercased text. *)
Definition classify_spec (lowered : string) : intent :=
  if existsb (fun kw => includes kw lowered) reviewKeywords
     || (includes "code" lowered && includes "file" lowered)
  then review else chat.

(** ** A concrete engine, for running the handler on examples *)

Definition lowerAscii (a : ascii) : ascii :=
  let n := nat_of_ascii a in
  if Nat.leb 65 n && Nat.leb n 90 then ascii_of_nat (n + 32) else a.

Fixpoint lowerString (s : string) : string :=
  match s with
  | EmptyString => EmptyString
  | String a s' => String (lowerAscii a) (lowerString s')
  end.

(** A reader of JSON texts without escapes, exponents or fractions: enough
    to run the handler on model answers.  The members of an object are kept
    latest first, so that a repeated key reads as its last value. *)
Fixpoint skipWs (s : string) : string :=
  match s with
  | String a s' =>
      if Ascii.eqb a " " || Ascii.eqb a (ascii_of_nat 10) || Ascii.eqb a (ascii_of_nat 9)
         || Ascii.eqb a (ascii_of_nat 13)
      then skipWs s' else s
  | EmptyString => s
  end.

Definition isDigit (a : ascii) : bool :=
  let n := nat_of_ascii a in Nat.leb 48 n && Nat.leb n 57.

Fixpoint readDigits (s : string) : string * string :=
  match s with
  | String a s' =>
      if isDigit a then let '(d, r) := readDigits s' in (String a d, r) else ("", s)
  | EmptyString => ("", s)
  end.

(** The text up to the closing quote. *)
Fixpoint readQuoted (s : string) : option (string * string) :=
  match s with
  | EmptyString => None
  | String a s' =>
      if Ascii.eqb a (ascii_of_nat 34) then Some ("", s')
      else if Ascii.eqb a "\" then None
      else match readQuoted s' with
           | Some (t, r) => Some (String a t, r)
           | None => None
           end
  end.

Definition readNumber (negative : bool) (s : string) : option (json * string) :=
  match readDigits s with
  | ("", _) => None
  | ("0", r) => Some (JNum (Number true "0"), r)
  | (String "0" _, _) => None
  | (d, r) => Some (JNum (Number false (if negative then "-" +:+ d else d)), r)
  end.

Fixpoint readValue (fuel : nat) (s : string) : option (json * string) :=
  match fuel with
  | O => None
  | S fuel =>
      match skipWs s with
      | String "n" (String "u" (String "l" (String "l" r))) => Some (JNull, r)
      | String "t" (String "r" (String "u" (String "e" r))) => Some (JBool true, r)
      | String "f" (String "a" (String "l" (String "s" (String "e" r)))) =>
          Some (JBool false, r)
      | String "-" r => readNumber true r
      | String "[" r =>
          match skipWs r with
          | String "]" r' => Some (JArr [], r')
          | _ => match readItems fuel r with
                 | Some (items, r') => Some (JArr items, r')
                 | None => None
                 end
          end
      | String "{" r =>
          match skipWs r with
          | String "}" r' => Some (JObj [], r')
          | _ => match readMembers fuel r with
                 | Some (props, r') => Some (JObj props, r')
                 | None => None
                 end
          end
      | String a r =>
          if Ascii.eqb a (ascii_of_nat 34) then
            match readQuoted r with
            | Some (t, r') => Some (JStr t, r')
            | None => None
            end
          else readNumber false (String a r)
      | EmptyString => None
      end
  end
with readItems (fuel : nat) (s : string) : option (list json * string) :=
  match fuel with
  | O => None
  | S fuel =>
      match readValue fuel s with
      | Some (v, r) =>
          match skipWs r with
          | String "]" r' => Some ([v], r')
          | String "," r' =>
              match readItems fuel r' with
              | Some (vs, r'') => Some (v :: vs, r'')
              | None => None
              end
          | _ => None
          end
      | None => None
      end
  end
with readMembers (fuel : nat) (s : string) : option (list (string * json) * string) :=
  match fuel with
  | O => None
  | S fuel =>
      match skipWs s with
      | String a r =>
          if Ascii.eqb a (ascii_of_nat 34) then
            match readQuoted r with
            | Some (k, r1) =>
                match skipWs r1 with
                | String ":" r2 =>
                    match readValue fuel r2 with
                    | Some (v, r3) =>
                        match skipWs r3 with
                        | String "}" r4 => Some ([(k, v)], r4)
                        | String "," r4 =>
                            match readMembers fuel r4 with
                            | Some (kvs, r5) => Some ((kvs ++ [(k, v)])%list, r5)
                            | None => None
                            end
                        | _ => None
                        end
                    | None => None
                    end
                | _ => None
                end
            | None => None
            end
          else None
      | EmptyString => None
      end
  end.

Definition readJson (s : string) : option json :=
  match readValue (2 * String.length s + 2) s with
  | Some (v, r) => match skipWs r with EmptyString => Some v | _ => None end
  | None => None
  end.

(** Joining a path segment to a root; a segment that is not a string is
    refused, as the path functions of the host refuse it. *)
Definition joinSegment (root : string) (segment : jsval) : exn + string :=
  match segment with
  | Some (JStr p) => inr (root +:+ "/" +:+ p)
  | _ => inl (TypeError "The path argument must be of type string")
  end.

Definition demoEngine : Engine :=
  {| toLowerCase := lowerString; JSON_parse := readJson; joinPath := joinSegment |}.

(** A host with an API key, a workspace folder and no I/O faults, whose
    search finds [uris] and whose model answers [answer]. *)
Definition demoWorld (uris : list string) (answer : exn + option string) : world :=
  {| apiKey := Some "key";
     importGenAI := None;
     findFiles := inr uris;
     readFault := fun _ => None;
     noSuchFile := fun uri => Error ("Unable to read file " +:+ uri);
     generateContent := fun _ => answer;
     workspaceFolder := Some "/ws";
     writeFault := fun _ => None |}.

Definition initialState : state :=
  State true [] JNull ∅ [].

Definition userMessage (t : string) : webviewMessage := Message "userMessage" t.

(** The text between double quotes. *)
Definition quoted (s : string) : string := dq +:+ s +:+ dq.

(** ** Vocabulary of the statements *)

(** The host gives the handler a client: an API key is configured and the
    client library loads. *)
Definition hasClient (w : world) : Prop :=
  (exists key, apiKey w = Some key /\ key <> "") /\ importGenAI w = None.

(** The state after posting one more reply. *)
Definition withReply (st : state) (t : option string) : state :=
  State (currentPanel st) (history st) (pendingFixes st) (fs st) (posted st ++ [t]).

(** The state with another file system. *)
Definition withFs (st : state) (files : gmap string string) : state :=
  State (currentPanel st) (history st) (pendingFixes st) files (posted st).

(** An entry the loop of [applyFixes] writes: its [fixedCode] is the
    non-empty text [snd target] and its [path] joins the root into the URI
    [fst target]. *)
Definition writable `{Engine} (root : string) (file : json) (target : string * string) : Prop :=
  prop file "fixedCode" = inr (Some (JStr (snd target)))
  /\ snd target <> ""
  /\ exists path, prop file "path" = inr path /\ joinPath root path = inr (fst target).

(** The file system after the writes [targets], made in order. *)
Definition written (targets : list (string * string)) (files : gmap string string)
  : gmap string string :=
  foldl (fun m t => <[fst t := snd t]> m) files targets.

(** What [readWorkspaceFiles] reads from a file system, as a function. *)
Definition readAll (w : world) (files : gmap string string) (uris : list string)
  : exn + list (string * string) :=
  mapE (fun uri =>
          match readFault w uri with
          | Some e => inl e
          | None =>
              match files !! uri with
              | Some content => inr (uri, content)
              | None => inl (noSuchFile w uri)
              end
          end) uris.

(** The state with another pending proposal. *)
Definition withPending (st : state) (p : json) : state :=
  State (currentPanel st) (history st) p (fs st) (posted st).

(** The state with another history. *)
Definition withHistory (st : state) (h : list turn) : state :=
  State (currentPanel st) h (pendingFixes st) (fs st) (posted st).

(** A parsed answer that proposes nothing: [null], or a value whose
    [files] is falsy or of length zero. *)
Definition emptyProposal (parsed : json) : bool :=
  match prop parsed "files" with
  | inl _ => true
  | inr files => noFiles files
  end.

(** The state a review ends in once the model's answer is parsed, from
    the state [st] reached after the two progress replies. *)
Definition afterParse (st : state) (raw : option string) (parsed : json) : state :=
  match prop parsed "files" with
  | inl _ => withReply (withPending st parsed) raw
  | inr files =>
      if noFiles files then
        withReply (withPending st JNull) (Some "✅ No issues found. Your code looks good.")
      else
        withReply (withPending st parsed)
          (Some "I found issues and prepared fixes. Do you want me to apply them? (Yes / No)")
  end.

Section Events.

Context `{engine : Engine}.

(** The message is a confirmation and the pending proposal is applied in
    full: every write is made and the summary is built. *)
Definition appliedInFull (w : world) (msg : webviewMessage) (st : state) : Prop :=
  isCodeReviewRequest (text msg) = false
  /\ existsb (String.eqb (toLowerCase (text msg))) ["yes"; "apply"] = true
  /\ fst (applyFixes w (pendingFixes st) st) = inr tt
  /\ exists summary, buildFixSummary (pendingFixes st) = inr summary.

(** The message is the rejection "no". *)
Definition rejected (msg : webviewMessage) : Prop :=
  isCodeReviewRequest (text msg) = false /\ toLowerCase (text msg) = "no".

(** The message asks for a review, the review reaches the model, and the
    model's answer parses to an empty proposal. *)
Definition reviewedEmpty (w : world) (msg : webviewMessage) (st : state) : Prop :=
  isCodeReviewRequest (text msg) = true
  /\ exists uris files raw cleanJson parsed,
       findFiles w = inr uris
       /\ readAll w (fs st) (take 10 uris) = inr files
       /\ files <> []
       /\ generateContent w [Turn user (buildReviewPrompt files)] = inr raw
       /\ extractJson raw = inr cleanJson
       /\ JSON_parse cleanJson = Some parsed
       /\ emptyProposal parsed = true.

End Events.

(** ** Relations between the state before and after *)

(** A computation respects a relation on states when the state it ends
    in, whether it returns or throws, is related to the state it started
    from. *)
Definition respects {A} (R : relation state) (m : M A) : Prop :=
  forall st, R st (snd (m st)).

(** The component [proj] of the state is left as it was. *)
Definition same {X} (proj : state -> X) : relation state :=
  fun st st' => proj st' = proj st.

(** Replies are only added to the ones already posted. *)
Definition grows : relation state :=
  fun st st' => exists more, posted st' = posted st ++ more.

Abbreviation preserves proj := (respects (same proj)).

(** ** Example data *)

(** A message whose model call fails, and one the model answers. *)
Definition failingStep (t : string) : world * webviewMessage :=
  (demoWorld [] (inl (Error "fetch failed")), userMessage t).

Definition answeredStep (t reply : string) : world * webviewMessage :=
  (demoWorld [] (inr (Some reply)), userMessage t).

(** A workspace of one file, and a review of it that the model answers
    with [answer]. *)
Definition oneFileWorkspace : state :=
  State true [] JNull {[ "/ws/a.js" := "var x" ]} [].

Definition reviewWorld (answer : string) : world :=
  demoWorld ["/ws/a.js"] (inr (Some answer)).

Definition emptyAnswer : string := "prefix {" +:+ quoted "files" +:+ ":[]} suffix".

(** One entry of a fix proposal. *)
Definition fixEntry (path : string) (issues : list string) (fixedCode : json) : json :=
  JObj [("path", JStr path); ("issues", JArr (List.map JStr issues)); ("fixedCode", fixedCode)].

Definition fixSet (entries : list json) : json := JObj [("files", JArr entries)].

(** The proposal of the round-trip scenario. *)
Definition oneFile : json := fixSet [fixEntry "a.js" ["x"] (JStr "console.log(1)")].

(** Two files, the second with a [fixedCode] that is a number. *)
Definition secondInvalid : json :=
  fixSet [ fixEntry "a.js" ["x"] (JStr "console.log(1)");
           fixEntry "b.js" ["y"] (JNum (Number false "42")) ].

(** A proposal whose only entry has no [issues] field. *)
Definition withoutIssues : json :=
  fixSet [JObj [("path", JStr "a.js"); ("fixedCode", JStr "console.log(1)")]].

(** A state in which [p] is pending. *)
Definition pendingState (p : json) : state := State true [] p ∅ [].

(** ** Vocabulary of the further properties *)

(** A history made of whole exchanges: a user turn, then the model's. *)
Fixpoint paired (h : list turn) : bool :=
  match h with
  | [] => true
  | Turn user _ :: Turn model _ :: rest => paired rest
  | _ => false
  end.

(** The block of one file in the review prompt. *)
Definition fileBlock (f : string * string) : string :=
  nl +:+ "--- " +:+ fst f +:+ " ---" +:+ nl +:+ snd f +:+ nl.

(** The content the writes [targets] leave at [uri], if any of them is to
    [uri]: that of the last one. *)
Fixpoint lastWrite (targets : list (string * string)) (uri : string) : option string :=
  match targets with
  | [] => None
  | t :: rest =>
      match lastWrite rest uri with
      | Some content => Some content
      | None => if String.eqb (fst t) uri then Some (snd t) else None
      end
  end.

(** The reply of a chat turn to what the model produced. *)
Definition replyOf (result : option string) : string :=
  if truthy (JStr <$> result) then asText (JStr <$> result)
  else "Sorry, I could not generate a response.".

(** The text has neither a slash nor a backslash. *)
Fixpoint noSeparator (s : string) : bool :=
  match s with
  | EmptyString => true
  | String a s' => negb (Ascii.eqb a "/" || Ascii.eqb a "\") && noSeparator s'
  end.

(** ** Further example data *)

(** The host of [demoWorld] without a workspace folder, without an API
    key, and with a file that cannot be read. *)
Definition noFolderWorld : world :=
  {| apiKey := Some "key";
     importGenAI := None;
     findFiles := inr [];
     readFault := fun _ => None;
     noSuchFile := fun uri => Error ("Unable to read file " +:+ uri);
     generateContent := fun _ => inr None;
     workspaceFolder := None;
     writeFault := fun _ => None |}.

Definition noKeyWorld : world :=
  {| apiKey := Some "";
     importGenAI := None;
     findFiles := inr [];
     readFault := fun _ => None;
     noSuchFile := fun uri => Error ("Unable to read file " +:+ uri);
     generateContent := fun _ => inr None;
     workspaceFolder := Some "/ws";
     writeFault := fun _ => None |}.

Definition lockedFileWorld : world :=
  {| apiKey := Some "key";
     importGenAI := None;
     findFiles := inr ["/ws/a.js"; "/ws/b.js"];
     readFault := fun uri => if String.eqb uri "/ws/b.js" then Some (Error "EACCES") else None;
     noSuchFile := fun uri => Error ("Unable to read file " +:+ uri);
     generateContent := fun _ => inr None;
     workspaceFolder := Some "/ws";
     writeFault := fun _ => None |}.

(** An answer that proposes one fix, and what it parses to. *)
Definition fixAnswer : string :=
  "Here you go: {" +:+ quoted "files" +:+ ":[{" +:+ quoted "path" +:+ ":" +:+ quoted "a.js"
  +:+ "," +:+ quoted "issues" +:+ ":[" +:+ quoted "x" +:+ "]," +:+ quoted "fixedCode" +:+ ":"
  +:+ quoted "console.log(1)" +:+ "}]}".

Definition fixAnswerJson : string :=
  "{" +:+ quoted "files" +:+ ":[{" +:+ quoted "path" +:+ ":" +:+ quoted "a.js"
  +:+ "," +:+ quoted "issues" +:+ ":[" +:+ quoted "x" +:+ "]," +:+ quoted "fixedCode" +:+ ":"
  +:+ quoted "console.log(1)" +:+ "}]}".

Definition fixAnswerParsed : json :=
  JObj [("files",
         JArr [JObj [("fixedCode", JStr "console.log(1)");
                     ("issues", JArr [JStr "x"]);
                     ("path", JStr "a.js")]])].

(** A proposal whose only fix is the empty text, one that writes the same
    file twice, and one with three issues in a nested path. *)
Definition emptyCode : json := fixSet [fixEntry "a.js" ["x"] (JStr "")].

Definition sameFileTwice : json :=
  fixSet [fixEntry "a.js" ["x"] (JStr "first"); fixEntry "a.js" ["y"] (JStr "second")].

Definition nestedEntryProps : list (string * json) :=
  [("path", JStr "src/lib/a.js");
   ("issues", JArr [JStr "x"; JStr "y"; JStr "z"]);
   ("fixedCode", JStr "c")].

(** Seven exchanges. *)
Definition sevenExchanges : list turn :=
  concat (repeat [Turn user "q"; Turn model "a"] 7).

(** * Properties *)

(** ** The intent classifier *)

Section Classifier.

Context `{engine : Engine}.

Lemma isCodeReviewRequest_existsb (text : string) :
  isCodeReviewRequest text =
  existsb (fun kw => includes kw (toLowerCase text)) reviewKeywords
  || (includes "code" (toLowerCase text) && includes "file" (toLowerCase text)).
Proof.
  unfold isCodeReviewRequest, reviewKeywords. simpl.
  rewrite orb_false_r, !orb_assoc. reflexivity.
Qed.

(** C6. For every message text, [isCodeReviewRequest] answers [true]
    (review) exactly when the lowercased text contains one of the nine
    keywords, or contains both "code" and "file"; otherwise it answers
    [false] (chat).  As a function of the text alone it is deterministic,
    and it agrees with the classifier written in the specification's
    words. *)
Theorem classify_iff (text : string) :
  (isCodeReviewRequest text = true <->
     (exists kw, In kw reviewKeywords /\ includes kw (toLowerCase text) = true)
     \/ (includes "code" (toLowerCase text) = true
         /\ includes "file" (toLowerCase text) = true))
  /\ (if isCodeReviewRequest text then review else chat)
     = classify_spec (toLowerCase text).
Proof.
  split.
  - rewrite isCodeReviewRequest_existsb, orb_true_iff, andb_true_iff.
    rewrite existsb_exists. reflexivity.
  - unfold classify_spec. rewrite isCodeReviewRequest_existsb. reflexivity.
Qed.

End Classifier.

Example includes_ex : includes "bug" "a bug here" = true /\ includes "bug" "bu g" = false.
Proof. split; reflexivity. Qed.

Example classify_ex :
  @isCodeReviewRequest demoEngine "Please REVIEW my project" = true
  /\ @isCodeReviewRequest demoEngine "open the code of this file" = true
  /\ @isCodeReviewRequest demoEngine "hello there" = false
  /\ @isCodeReviewRequest demoEngine "yes" = false.
Proof. repeat split; reflexivity. Qed.

Example lastSegment_ex : lastSegment "" "src\lib/a.js" = "a.js".
Proof. reflexivity. Qed.

Example extractJson_ex :
  @extractJson (Some ("prefix {" +:+ quoted "files" +:+ ":[]} suffix"))
  = inr ("{" +:+ quoted "files" +:+ ":[]}")
  /\ readJson ("{" +:+ quoted "files" +:+ ":[]}") = Some (JObj [("files", JArr [])])
  /\ @extractJson (Some "no braces here") = inl (Error "No JSON object found in response").
Proof. repeat split; reflexivity. Qed.

(** ** Reasoning about the monad *)

#[local] Instance same_preorder {X} (proj : state -> X) : PreOrder (same proj).
Proof.
  split.
  - intros st. reflexivity.
  - intros st1 st2 st3 H12 H23. unfold same in *. congruence.
Qed.

#[local] Instance grows_preorder : PreOrder grows.
Proof.
  split.
  - intros st. exists []. symmetry. apply app_nil_r.
  - intros st1 st2 st3 [m1 H1] [m2 H2]. exists (m1 ++ m2).
    rewrite H2, H1. symmetry. apply app_assoc.
Qed.

Section Respects.

Context (R : relation state) `{!PreOrder R}.

Lemma respects_ret {A} (a : A) : respects R (ret a).
Proof. intros st. simpl. reflexivity. Qed.

Lemma respects_throw {A} (e : exn) : respects R (@throw A e).
Proof. intros st. simpl. reflexivity. Qed.

Lemma respects_lift {A} (r : exn + A) : respects R (lift r).
Proof. destruct r; intros st; simpl; reflexivity. Qed.

Lemma respects_get : respects R get.
Proof. intros st. simpl. reflexivity. Qed.

Lemma respects_bind {A B} (m : M A) (k : A -> M B) :
  respects R m -> (forall a, respects R (k a)) -> respects R (bind m k).
Proof.
  intros Hm Hk st. unfold bind. specialize (Hm st).
  destruct (m st) as [[e | a] st1]; simpl in *; [exact Hm |].
  transitivity st1; [exact Hm | apply Hk].
Qed.

Lemma respects_tryCatch {A} (body : M A) (handler : exn -> M A) :
  respects R body -> (forall e, respects R (handler e)) ->
  respects R (tryCatch body handler).
Proof.
  intros Hm Hk st. unfold tryCatch. specialize (Hm st).
  destruct (body st) as [[e | a] st1]; simpl in *; [| exact Hm].
  transitivity st1; [exact Hm | apply Hk].
Qed.

Lemma respects_modify (f : state -> state) :
  (forall st, R st (f st)) -> respects R (modify f).
Proof. intros Hf st. apply Hf. Qed.

Lemma respects_forOf {A} (f : A -> M unit) (l : list A) :
  (forall x, respects R (f x)) -> respects R (forOf f l).
Proof.
  intros Hf. induction l as [| x rest IH]; simpl.
  - apply respects_ret.
  - apply respects_bind; [apply Hf | intros _; exact IH].
Qed.

Lemma respects_forPush {A B} (f : A -> M B) (l : list A) :
  (forall x, respects R (f x)) -> respects R (forPush f l).
Proof.
  intros Hf. induction l as [| x rest IH]; simpl.
  - apply respects_ret.
  - apply respects_bind; [apply Hf | intros y].
    apply respects_bind; [exact IH | intros ys; apply respects_ret].
Qed.

End Respects.

Lemma grows_postMessage t : respects grows (postMessage t).
Proof. intros st. exists [t]. reflexivity. Qed.

(** Breaks a computation into its steps; the goals left are the branches
    on values and the state updates that touch the component at hand. *)
Ltac respects_step :=
  first
    [ apply respects_ret; try exact _
    | apply respects_throw; try exact _
    | apply respects_lift; try exact _
    | apply respects_get; try exact _
    | apply respects_bind; [exact _ | | intros ?]
    | apply respects_tryCatch; [exact _ | | intros ?]
    | apply respects_forOf; [exact _ | intros ?]
    | apply respects_forPush; [exact _ | intros ?]
    | apply grows_postMessage
    | apply respects_modify; intros ?; reflexivity
    | apply respects_modify; intros ?; exists []; symmetry; apply app_nil_r ].

Ltac respects_auto := repeat respects_step.

Section Frames.

Context `{engine : Engine}.

Lemma readFile_respects R `{!PreOrder R} w uri : respects R (readFile w uri).
Proof.
  unfold readFile. destruct (readFault w uri); respects_auto.
  match goal with |- context [fs ?a !! uri] => destruct (fs a !! uri) end; respects_auto.
Qed.

Lemma readWorkspaceFiles_respects R `{!PreOrder R} w : respects R (readWorkspaceFiles w).
Proof. unfold readWorkspaceFiles. respects_auto. apply readFile_respects; exact _. Qed.

Lemma getGeminiClient_respects R `{!PreOrder R} w : respects R (getGeminiClient w).
Proof.
  unfold getGeminiClient.
  destruct (apiKey w) as [[|]|]; respects_auto.
  destruct (importGenAI w); respects_auto.
Qed.

(** Writing a file touches the file system only. *)
Lemma writeFile_preserves {X} (proj : state -> X) w uri content :
  (forall st f, proj (State (currentPanel st) (history st) (pendingFixes st) f (posted st))
                = proj st) ->
  preserves proj (writeFile w uri content).
Proof.
  intros Hproj. unfold writeFile. destruct (writeFault w uri); respects_auto.
  unfold setFs. apply respects_modify. intros st. apply Hproj.
Qed.

Lemma applyFixes_preserves {X} (proj : state -> X) w data :
  (forall st f, proj (State (currentPanel st) (history st) (pendingFixes st) f (posted st))
                = proj st) ->
  preserves proj (applyFixes w data).
Proof.
  intros Hproj. unfold applyFixes. destruct (workspaceFolder w); respects_auto.
  unfold applyFix. respects_auto.
  match goal with |- context [if ?c then _ else _] => destruct c end; respects_auto.
  apply writeFile_preserves, Hproj.
Qed.

End Frames.

(** ** Dispatch of a message *)

Section Dispatch.

Context `{engine : Engine}.

Lemma getGeminiClient_ready w st : hasClient w -> getGeminiClient w st = (inr tt, st).
Proof.
  intros [(key & Hkey & Hne) Himport]. unfold getGeminiClient.
  rewrite Hkey, Himport. destruct key; [contradiction | reflexivity].
Qed.

Lemma handleMessage_review w msg st :
  hasClient w -> isCodeReviewRequest (text msg) = true ->
  handleMessage w msg st = reviewBranch w st.
Proof.
  intros Hc Hr. unfold handleMessage, bind.
  rewrite (getGeminiClient_ready _ _ Hc), Hr. reflexivity.
Qed.

Lemma handleMessage_confirm w msg st :
  hasClient w -> isCodeReviewRequest (text msg) = false ->
  truthy (Some (pendingFixes st)) = true ->
  existsb (String.eqb (toLowerCase (text msg))) ["yes"; "apply"] = true ->
  handleMessage w msg st = applyBranch w st.
Proof.
  intros Hc Hr Hp Ht. unfold handleMessage, bind.
  rewrite (getGeminiClient_ready _ _ Hc), Hr. unfold get.
  cbv iota beta. rewrite Hp, Ht. reflexivity.
Qed.

Lemma handleMessage_reject w msg st :
  hasClient w -> isCodeReviewRequest (text msg) = false ->
  truthy (Some (pendingFixes st)) = true ->
  toLowerCase (text msg) = "no" ->
  handleMessage w msg st = rejectBranch st.
Proof.
  intros Hc Hr Hp Ht. unfold handleMessage, bind.
  rewrite (getGeminiClient_ready _ _ Hc), Hr. unfold get.
  cbv iota beta. rewrite Hp, Ht. reflexivity.
Qed.

Lemma handleMessage_chat w msg st :
  hasClient w -> isCodeReviewRequest (text msg) = false ->
  truthy (Some (pendingFixes st)) = false
  \/ (existsb (String.eqb (toLowerCase (text msg))) ["yes"; "apply"] = false
      /\ toLowerCase (text msg) <> "no") ->
  handleMessage w msg st = chatBranch w msg st.
Proof.
  intros Hc Hr Hp. unfold handleMessage, bind.
  rewrite (getGeminiClient_ready _ _ Hc), Hr. unfold get.
  cbv iota beta. destruct Hp as [Hp | [Ht Hn]].
  - rewrite Hp. reflexivity.
  - rewrite Ht, andb_false_r.
    apply String.eqb_neq in Hn. rewrite Hn, andb_false_r. reflexivity.
Qed.

Lemma onDidReceiveMessage_user w msg st :
  type msg = "userMessage" ->
  onDidReceiveMessage w msg st = snd (tryCatch (handleMessage w msg) reportError st).
Proof. intros Ht. unfold onDidReceiveMessage. rewrite Ht. reflexivity. Qed.

End Dispatch.

(** ** Applying fixes *)

Section Apply.

Context `{engine : Engine}.

Lemma forOf_app {A} (f : A -> M unit) (l1 l2 : list A) (st : state) :
  forOf f (l1 ++ l2) st =
  match forOf f l1 st with
  | (inl e, st') => (inl e, st')
  | (inr _, st') => forOf f l2 st'
  end.
Proof.
  revert st. induction l1 as [| x l1 IH]; intros st; simpl; [reflexivity |].
  unfold bind. destruct (f x st) as [[e | []] st1]; [reflexivity | apply IH].
Qed.

Lemma applyFix_writable w root file target st :
  writable root file target -> writeFault w (fst target) = None ->
  applyFix w root file st = (inr tt, withFs st (<[fst target := snd target]> (fs st))).
Proof.
  intros (Hcode & Hne & path & Hpath & Hjoin) Hw.
  unfold applyFix, bind. rewrite Hcode. simpl.
  apply String.eqb_neq in Hne. rewrite Hne. simpl.
  rewrite Hpath. simpl. rewrite Hjoin. simpl.
  unfold writeFile. rewrite Hw. reflexivity.
Qed.

Lemma applyFix_invalid w root file fixedCode path st :
  prop file "fixedCode" = inr fixedCode -> isString fixedCode = false ->
  prop file "path" = inr path ->
  applyFix w root file st = (inl (Error ("Invalid fixedCode for " +:+ toStrV path)), st).
Proof.
  intros Hcode Hs Hpath. unfold applyFix, bind. rewrite Hcode. simpl.
  rewrite Hs, orb_true_r, Hpath. reflexivity.
Qed.

Lemma forOf_applyFix_writable w root files targets st :
  Forall2 (writable root) files targets ->
  Forall (fun t => writeFault w (fst t) = None) targets ->
  forOf (applyFix w root) files st = (inr tt, withFs st (written targets (fs st))).
Proof.
  intros Hall. revert st. induction Hall as [| file target files targets Hw _ IH];
    intros st Hfaults.
  - destruct st; reflexivity.
  - inversion Hfaults as [| ? ? Hfault Hfaults']; subst.
    simpl. unfold bind. rewrite (applyFix_writable _ _ _ _ _ Hw Hfault).
    rewrite (IH _ Hfaults'). reflexivity.
Qed.

(** C2. When the workspace folder is bound and the entries before
    position k are written (each has a non-empty text [fixedCode] and a
    path the host accepts, and no write fails), an entry at position k whose
    [fixedCode] is missing or not text makes [applyFixes] throw the error
    "Invalid fixedCode for <path of that entry>".  The file system then
    holds exactly the writes of the entries before k, with none undone and
    none made for the entries from k on; the confirmation branch throws the
    same error before it builds a summary, so that nothing is posted by it. *)
Theorem applyFixes_aborts_at_invalid_entry
    w data root before bad after targets fixedCode path st :
  workspaceFolder w = Some root ->
  prop data "files" = inr (Some (JArr (before ++ bad :: after))) ->
  Forall2 (writable root) before targets ->
  Forall (fun t => writeFault w (fst t) = None) targets ->
  prop bad "fixedCode" = inr fixedCode ->
  isString fixedCode = false ->
  prop bad "path" = inr path ->
  let failure := Error ("Invalid fixedCode for " +:+ toStrV path) in
  let st1 := withFs st (written targets (fs st)) in
  applyFixes w data st = (inl failure, st1)
  /\ (pendingFixes st = data -> applyBranch w st = (inl failure, st1))
  /\ posted st1 = posted st.
Proof.
  intros Hroot Hfiles Hbefore Hfaults Hcode Hs Hpath failure st1.
  assert (Happly : applyFixes w data st = (inl failure, st1)).
  { unfold applyFixes, bind. rewrite Hroot, Hfiles. simpl.
    rewrite forOf_app, (forOf_applyFix_writable _ _ _ _ _ Hbefore Hfaults).
    simpl. unfold bind.
    rewrite (applyFix_invalid _ _ _ _ _ _ Hcode Hs Hpath). reflexivity. }
  split; [exact Happly |]. split; [| reflexivity].
  intros Hpending. unfold applyBranch, bind, get. rewrite Hpending, Happly.
  reflexivity.
Qed.

(** C9. Round trip: when a proposal holds one entry whose [fixedCode] is
    the text [code] and [applyFixes] returns normally, the file it wrote,
    at the entry's path joined to the workspace root, holds exactly [code]
    (the whole content is replaced, every other file is untouched), and
    reading that file back gives [code]. *)
Theorem apply_then_read_roundtrip w data props code st st' :
  prop data "files" = inr (Some (JArr [JObj props])) ->
  lookupProp "fixedCode" props = Some (JStr code) ->
  applyFixes w data st = (inr tt, st') ->
  exists root uri,
    workspaceFolder w = Some root
    /\ joinPath root (lookupProp "path" props) = inr uri
    /\ st' = withFs st (<[uri := code]> (fs st))
    /\ fs st' !! uri = Some code
    /\ forall w', readFault w' uri = None -> readFile w' uri st' = (inr code, st').
Proof.
  intros Hfiles Hcode Happly. unfold applyFixes in Happly.
  destruct (workspaceFolder w) as [root |]; [| discriminate].
  unfold bind in Happly. rewrite Hfiles in Happly. simpl in Happly.
  unfold applyFix, bind in Happly. simpl in Happly. rewrite Hcode in Happly.
  simpl in Happly.
  destruct (String.eqb code ""); simpl in Happly; [discriminate |].
  destruct (joinPath root (lookupProp "path" props)) as [e | uri] eqn:Hjoin;
    simpl in Happly; [discriminate |].
  unfold writeFile in Happly.
  destruct (writeFault w uri); simpl in Happly; [discriminate |].
  injection Happly as <-.
  exists root, uri.
  split; [reflexivity |]. split; [exact Hjoin |]. split; [reflexivity |]. split.
  - simpl. apply lookup_insert_eq.
  - intros w' Hread. unfold readFile. rewrite Hread. unfold bind, get. simpl.
    rewrite lookup_insert_eq. reflexivity.
Qed.

End Apply.

(** The scenario of the specification: of two files the first is written,
    the second throws. *)
Lemma applyFixes_aborts_at_invalid_entry_witness :
  @applyFixes demoEngine (demoWorld [] (inr None)) secondInvalid (pendingState secondInvalid)
  = (inl (Error "Invalid fixedCode for b.js"),
     withFs (pendingState secondInvalid) (written [("/ws/a.js", "console.log(1)")] ∅))
  /\ @applyBranch demoEngine (demoWorld [] (inr None)) (pendingState secondInvalid)
     = (inl (Error "Invalid fixedCode for b.js"),
        withFs (pendingState secondInvalid) (written [("/ws/a.js", "console.log(1)")] ∅)).
Proof.
  destruct (@applyFixes_aborts_at_invalid_entry demoEngine
              (demoWorld [] (inr None)) secondInvalid "/ws"
              [fixEntry "a.js" ["x"] (JStr "console.log(1)")]
              (fixEntry "b.js" ["y"] (JNum (Number false "42"))) []
              [("/ws/a.js", "console.log(1)")]
              (Some (JNum (Number false "42"))) (Some (JStr "b.js"))
              (pendingState secondInvalid)) as (H1 & H2 & _).
  - reflexivity.
  - reflexivity.
  - constructor; [| constructor].
    split; [reflexivity |]. split; [discriminate |].
    exists (Some (JStr "a.js")). split; reflexivity.
  - constructor; [reflexivity | constructor].
  - reflexivity.
  - reflexivity.
  - reflexivity.
  - split; [exact H1 | apply H2; reflexivity].
Defined.

(** The round trip of the specification: [a.js] then holds
    [console.log(1)]. *)
Lemma apply_then_read_roundtrip_witness :
  exists root uri,
    workspaceFolder (demoWorld [] (inr None)) = Some root
    /\ @joinPath demoEngine root (Some (JStr "a.js")) = inr uri
    /\ withFs (pendingState oneFile) {[ "/ws/a.js" := "console.log(1)" ]}
       = withFs (pendingState oneFile) (<[uri := "console.log(1)"]> ∅)
    /\ fs (withFs (pendingState oneFile) {[ "/ws/a.js" := "console.log(1)" ]}) !! uri
       = Some "console.log(1)"
    /\ forall w', readFault w' uri = None ->
         @readFile w' uri (withFs (pendingState oneFile) {[ "/ws/a.js" := "console.log(1)" ]})
         = (inr "console.log(1)",
            withFs (pendingState oneFile) {[ "/ws/a.js" := "console.log(1)" ]}).
Proof.
  apply (@apply_then_read_roundtrip demoEngine (demoWorld [] (inr None)) oneFile
           [("path", JStr "a.js"); ("issues", JArr [JStr "x"]);
            ("fixedCode", JStr "console.log(1)")]
           "console.log(1)" (pendingState oneFile)).
  - reflexivity.
  - reflexivity.
  - reflexivity.
Defined.

(** ** Confirming a pending proposal *)

Section Confirm.

Context `{engine : Engine}.

Lemma applyFixes_all_writable w data root files targets st :
  workspaceFolder w = Some root ->
  prop data "files" = inr (Some (JArr files)) ->
  Forall2 (writable root) files targets ->
  Forall (fun t => writeFault w (fst t) = None) targets ->
  applyFixes w data st = (inr tt, withFs st (written targets (fs st))).
Proof.
  intros Hroot Hfiles Hall Hfaults. unfold applyFixes, bind.
  rewrite Hroot, Hfiles. simpl. apply forOf_applyFix_writable; assumption.
Qed.

Lemma mapE_fails {A B} (f : A -> exn + B) (l : list A) (x : A) :
  In x l -> (exists e, f x = inl e) -> exists e, mapE f l = inl e.
Proof.
  intros Hin [e He]. induction l as [| y rest IH]; [contradiction |].
  simpl. destruct Hin as [-> | Hin].
  - rewrite He. eauto.
  - destruct (f y); [eauto |].
    destruct (IH Hin) as [e' ->]. eauto.
Qed.

Lemma summaryLine_without_issues file :
  prop file "issues" = inr None -> exists e, summaryLine file = inl e.
Proof.
  intros Hissues. unfold summaryLine.
  destruct (prop file "path") as [e | [[| | | | |] |]]; rewrite ?Hissues; eauto.
Qed.

Lemma truthy_of_files data files :
  prop data "files" = inr (Some files) -> truthy (Some data) = true.
Proof. destruct data; simpl; intros H; try discriminate; reflexivity. Qed.

(** The handler on a confirmation, in terms of what [applyBranch] does. *)
Lemma onDidReceiveMessage_confirm w msg st :
  type msg = "userMessage" -> hasClient w ->
  isCodeReviewRequest (text msg) = false ->
  truthy (Some (pendingFixes st)) = true ->
  existsb (String.eqb (toLowerCase (text msg))) ["yes"; "apply"] = true ->
  onDidReceiveMessage w msg st = snd (tryCatch (applyBranch w) reportError st).
Proof.
  intros Ht Hc Hr Hp Hy. rewrite (onDidReceiveMessage_user _ _ _ Ht).
  unfold tryCatch. rewrite handleMessage_confirm by assumption. reflexivity.
Qed.

(** C1, as the code has it.  When the user confirms a pending proposal
    with "yes" or "apply" and [applyFixes] throws, the error is posted to
    the user as one reply, and the pending proposal is kept as it was: the
    gate is still awaiting confirmation. *)
Theorem apply_failure_keeps_pending w msg st e st1 :
  type msg = "userMessage" -> hasClient w ->
  isCodeReviewRequest (text msg) = false ->
  truthy (Some (pendingFixes st)) = true ->
  existsb (String.eqb (toLowerCase (text msg))) ["yes"; "apply"] = true ->
  applyFixes w (pendingFixes st) st = (inl e, st1) ->
  let st' := onDidReceiveMessage w msg st in
  st' = withReply st1 (Some ("⚠️ Error: " +:+ message e))
  /\ posted st' = posted st ++ [Some ("⚠️ Error: " +:+ message e)]
  /\ pendingFixes st' = pendingFixes st
  /\ gateOf st' = AwaitingConfirmation.
Proof.
  intros Ht Hc Hr Hp Hy Happly st'.
  assert (Hst' : st' = withReply st1 (Some ("⚠️ Error: " +:+ message e))).
  { unfold st'. rewrite onDidReceiveMessage_confirm by assumption.
    unfold tryCatch, applyBranch, bind, get. rewrite Happly. reflexivity. }
  assert (Hposted : posted st1 = posted st).
  { change st1 with (snd (inl (B := unit) e, st1)). rewrite <- Happly.
    apply (applyFixes_preserves posted). reflexivity. }
  assert (Hpending : pendingFixes st1 = pendingFixes st).
  { change st1 with (snd (inl (B := unit) e, st1)). rewrite <- Happly.
    apply (applyFixes_preserves pendingFixes). reflexivity. }
  split; [exact Hst' |]. rewrite Hst'.
  split; [cbn [posted withReply]; rewrite Hposted; reflexivity |].
  split; [exact Hpending |].
  unfold gateOf. cbn [pendingFixes withReply]. rewrite Hpending, Hp. reflexivity.
Qed.

(** C10. When every entry of the pending proposal is written (the
    workspace folder is bound, each entry has a non-empty text [fixedCode]
    and a path the host accepts, no write fails) and one entry has no
    [issues] field, a confirmation writes all the files, then
    [buildFixSummary] throws: the only reply posted is the error, not the
    success message, and the proposal is still pending. *)
Theorem missing_issues_fails_after_writing
    w msg st root files targets entry :
  type msg = "userMessage" -> hasClient w ->
  isCodeReviewRequest (text msg) = false ->
  existsb (String.eqb (toLowerCase (text msg))) ["yes"; "apply"] = true ->
  workspaceFolder w = Some root ->
  prop (pendingFixes st) "files" = inr (Some (JArr files)) ->
  Forall2 (writable root) files targets ->
  Forall (fun t => writeFault w (fst t) = None) targets ->
  In entry files ->
  prop entry "issues" = inr None ->
  let st' := onDidReceiveMessage w msg st in
  exists err,
    buildFixSummary (pendingFixes st) = inl err
    /\ fs st' = written targets (fs st)
    /\ posted st' = posted st ++ [Some ("⚠️ Error: " +:+ message err)]
    /\ pendingFixes st' = pendingFixes st
    /\ gateOf st' = AwaitingConfirmation.
Proof.
  intros Ht Hc Hr Hy Hroot Hfiles Hall Hfaults Hin Hissues st'.
  pose proof (truthy_of_files _ _ Hfiles) as Hp.
  destruct (mapE_fails summaryLine files entry Hin
              (summaryLine_without_issues _ Hissues)) as [err Herr].
  assert (Hsum : buildFixSummary (pendingFixes st) = inl err).
  { unfold buildFixSummary. rewrite Hfiles, Herr. reflexivity. }
  exists err. split; [exact Hsum |].
  unfold st'. rewrite onDidReceiveMessage_confirm by assumption.
  unfold tryCatch, applyBranch, bind, get.
  rewrite (applyFixes_all_writable _ _ _ _ _ _ Hroot Hfiles Hall Hfaults).
  cbn [pendingFixes withFs]. rewrite Hsum.
  split; [reflexivity |]. split; [reflexivity |]. split; [reflexivity |].
  unfold gateOf.
  change (truthy (Some (pendingFixes st)) = true) in Hp.
  match goal with
  | |- (if truthy (Some ?p) then _ else _) = _ => change p with (pendingFixes st)
  end.
  rewrite Hp. reflexivity.
Qed.

End Confirm.

(** C1 fails as stated: with the second of two entries invalid, "yes"
    posts the error and the proposal is still pending, the gate not back
    in [Idle]. *)
Lemma apply_failure_clears_pending_counterexample :
  let w := demoWorld [] (inr None) in
  let st := pendingState secondInvalid in
  let st' := @onDidReceiveMessage demoEngine w (userMessage "yes") st in
  fst (@applyFixes demoEngine w (pendingFixes st) st)
    = inl (Error "Invalid fixedCode for b.js")
  /\ posted st' = [Some "⚠️ Error: Invalid fixedCode for b.js"]
  /\ pendingFixes st' = secondInvalid
  /\ gateOf st' <> Idle.
Proof. repeat split; try reflexivity. discriminate. Qed.

Lemma apply_failure_keeps_pending_witness :
  let w := demoWorld [] (inr None) in
  let st := pendingState secondInvalid in
  let st1 := withFs st (written [("/ws/a.js", "console.log(1)")] ∅) in
  let st' := @onDidReceiveMessage demoEngine w (userMessage "yes") st in
  st' = withReply st1 (Some ("⚠️ Error: Invalid fixedCode for b.js"))
  /\ posted st' = posted st ++ [Some ("⚠️ Error: Invalid fixedCode for b.js")]
  /\ pendingFixes st' = pendingFixes st
  /\ gateOf st' = AwaitingConfirmation.
Proof.
  intros w st st1.
  apply (@apply_failure_keeps_pending demoEngine w (userMessage "yes") st
           (Error "Invalid fixedCode for b.js") st1).
  - reflexivity.
  - split; [exists "key"; split; [reflexivity | discriminate] | reflexivity].
  - reflexivity.
  - reflexivity.
  - reflexivity.
  - reflexivity.
Defined.

Lemma missing_issues_fails_after_writing_witness :
  let w := demoWorld [] (inr None) in
  let st := pendingState withoutIssues in
  let st' := @onDidReceiveMessage demoEngine w (userMessage "Yes") st in
  exists err,
    @buildFixSummary (pendingFixes st) = inl err
    /\ fs st' = written [("/ws/a.js", "console.log(1)")] (fs st)
    /\ posted st' = posted st ++ [Some ("⚠️ Error: " +:+ message err)]
    /\ pendingFixes st' = pendingFixes st
    /\ gateOf st' = AwaitingConfirmation.
Proof.
  intros w st.
  apply (@missing_issues_fails_after_writing demoEngine w (userMessage "Yes") st "/ws"
           [JObj [("path", JStr "a.js"); ("fixedCode", JStr "console.log(1)")]]
           [("/ws/a.js", "console.log(1)")]
           (JObj [("path", JStr "a.js"); ("fixedCode", JStr "console.log(1)")])).
  - reflexivity.
  - split; [exists "key"; split; [reflexivity | discriminate] | reflexivity].
  - reflexivity.
  - reflexivity.
  - reflexivity.
  - reflexivity.
  - constructor; [| constructor].
    split; [reflexivity |]. split; [discriminate |].
    exists (Some (JStr "a.js")). split; reflexivity.
  - constructor; [reflexivity | constructor].
  - left. reflexivity.
  - reflexivity.
Defined.

(** ** Chat turns and the history *)

Section Chat.

Context `{engine : Engine}.

Lemma onDidReceiveMessage_chat w msg st :
  type msg = "userMessage" -> hasClient w ->
  isCodeReviewRequest (text msg) = false ->
  truthy (Some (pendingFixes st)) = false
  \/ (existsb (String.eqb (toLowerCase (text msg))) ["yes"; "apply"] = false
      /\ toLowerCase (text msg) <> "no") ->
  onDidReceiveMessage w msg st = snd (tryCatch (chatBranch w msg) reportError st).
Proof.
  intros Ht Hc Hr Hp. rewrite (onDidReceiveMessage_user _ _ _ Ht).
  unfold tryCatch. rewrite handleMessage_chat by assumption. reflexivity.
Qed.

(** What a chat turn does, by the outcome of the model call. *)
Lemma chatBranch_run w msg st :
  chatBranch w msg st =
  let h := history st ++ [Turn user (text msg)] in
  match generateContent w h with
  | inl e => (inl e, withHistory st h)
  | inr result =>
      let reply :=
        if truthy (JStr <$> result) then asText (JStr <$> result)
        else "Sorry, I could not generate a response." in
      (inr tt, withReply (withHistory st (trimmed (h ++ [Turn model reply]))) (Some reply))
  end.
Proof.
  unfold chatBranch, bind, historyPush, get, setHistory, modify. simpl.
  destruct (generateContent w (history st ++ [Turn user (text msg)])) as [e | result];
    reflexivity.
Qed.

(** When the model call of a chat turn fails, the user turn pushed before
    the call stays in the history. *)
Lemma chat_failure_appends_user_turn w msg st e :
  type msg = "userMessage" -> hasClient w ->
  isCodeReviewRequest (text msg) = false ->
  truthy (Some (pendingFixes st)) = false
  \/ (existsb (String.eqb (toLowerCase (text msg))) ["yes"; "apply"] = false
      /\ toLowerCase (text msg) <> "no") ->
  generateContent w (history st ++ [Turn user (text msg)]) = inl e ->
  onDidReceiveMessage w msg st
  = withReply (withHistory st (history st ++ [Turn user (text msg)]))
      (Some ("⚠️ Error: " +:+ message e)).
Proof.
  intros Ht Hc Hr Hp Hgen. rewrite onDidReceiveMessage_chat by assumption.
  unfold tryCatch. rewrite chatBranch_run. simpl. rewrite Hgen. reflexivity.
Qed.

(** Without an API key the handler stops before any branch: one error
    reply, nothing else changed. *)
Lemma missing_key_changes_nothing w msg st :
  type msg = "userMessage" -> apiKey w = None ->
  onDidReceiveMessage w msg st
  = withReply st
      (Some ("⚠️ Error: Gemini API key is not set. Please add it in CodeMedic settings.")).
Proof.
  intros Ht Hkey. rewrite (onDidReceiveMessage_user _ _ _ Ht).
  unfold tryCatch, handleMessage, bind, getGeminiClient. rewrite Hkey. reflexivity.
Qed.

Lemma trimmed_length h : length (trimmed h) <= 2 * MAX_TURNS.
Proof.
  unfold trimmed. destruct (Nat.ltb_spec (MAX_TURNS * 2) (length h)) as [Hlt | Hge].
  - rewrite length_drop. unfold MAX_TURNS in *. lia.
  - unfold MAX_TURNS in *. lia.
Qed.

(** A chat turn the model answers leaves at most [2 * MAX_TURNS] entries. *)
Lemma chat_success_bounded w msg st result :
  generateContent w (history st ++ [Turn user (text msg)]) = inr result ->
  length (history (snd (chatBranch w msg st))) <= 2 * MAX_TURNS.
Proof.
  intros Hgen. rewrite chatBranch_run. simpl. rewrite Hgen. simpl.
  apply trimmed_length.
Qed.

(** Every chat message whose model call fails adds one entry to the
    history: a run of failures makes it as long as one likes. *)
Lemma failed_turns_accumulate w msg e n st :
  type msg = "userMessage" -> hasClient w ->
  isCodeReviewRequest (text msg) = false ->
  truthy (Some (pendingFixes st)) = false ->
  (forall h, generateContent w h = inl e) ->
  length (history (session (repeat (w, msg) n) st)) = length (history st) + n.
Proof.
  intros Ht Hc Hr Hp Hgen. revert st Hp.
  induction n as [| n IH]; intros st Hp; simpl.
  - lia.
  - rewrite (chat_failure_appends_user_turn w msg st e) by auto.
    rewrite IH by exact Hp. simpl. rewrite length_app. simpl. lia.
Qed.

End Chat.

(** C3, at a failing input.  The first chat message "hello" is sent while
    the model call fails: the error is posted as one reply, and the history,
    empty before, now holds the user turn of the failed message. *)
Theorem chat_failure_leaves_user_turn :
  let st' := @onDidReceiveMessage demoEngine (fst (failingStep "hello"))
               (userMessage "hello") initialState in
  posted st' = [Some "⚠️ Error: fetch failed"]
  /\ history st' = [Turn user "hello"]
  /\ history st' <> history initialState.
Proof. repeat split; try reflexivity. discriminate. Qed.

(** C4, at a failing input.  Thirteen chat messages in a row whose model
    call fails leave thirteen entries in the history, more than
    [2 * MAX_TURNS]; and after six answered messages and one failed one, the
    next answered message makes [trimHistory] drop three entries, a pair and
    the user turn of the following pair, so that the history then starts
    with a model turn. *)
Theorem history_bound_broken_by_failures :
  length (history (@session demoEngine (repeat (failingStep "hi") 13) initialState)) = 13
  /\ 2 * MAX_TURNS < 13
  /\ (let before :=
         history (@session demoEngine
                    (repeat (answeredStep "q" "a") 6 ++ [failingStep "lost"]) initialState) in
       let after :=
         history (@session demoEngine
                    (repeat (answeredStep "q" "a") 6
                     ++ [failingStep "lost"; answeredStep "q" "a"]) initialState) in
       length before = 13
       /\ after = drop 3 (before ++ [Turn user "q"; Turn model "a"])
       /\ take 3 before = [Turn user "q"; Turn model "a"; Turn user "q"]
       /\ head after = Some (Turn model "a")).
Proof. vm_compute. repeat split; lia. Qed.

(** ** Reviews *)

(** Case analysis on the stages of a review. *)
Ltac review_cases :=
  repeat match goal with
    | |- context [match findFiles ?w with _ => _ end] => destruct (findFiles w)
    | |- context [match readAll ?w ?f ?u with _ => _ end] =>
        destruct (readAll w f u) as [? | [| ? ?]]
    | |- context [match generateContent ?w ?c with _ => _ end] =>
        destruct (generateContent w c)
    | |- context [match extractJson ?r with _ => _ end] => destruct (extractJson r)
    | |- context [match JSON_parse ?c with _ => _ end] => destruct (JSON_parse c)
    | |- context [match prop ?p ?k with _ => _ end] => destruct (prop p k)
    | |- context [if noFiles ?f then _ else _] => destruct (noFiles f)
    end.


Section Review.

Context `{engine : Engine}.

Lemma readFile_run w uri st :
  readFile w uri st =
  (match readFault w uri with
   | Some e => inl e
   | None =>
       match fs st !! uri with
       | Some content => inr content
       | None => inl (noSuchFile w uri)
       end
   end, st).
Proof.
  unfold readFile. destruct (readFault w uri); [reflexivity |].
  unfold bind, get. destruct (fs st !! uri); reflexivity.
Qed.

Lemma forPush_readFile w uris st :
  forPush (fun uri => bind (readFile w uri) (fun data => ret (uri, data))) uris st
  = (readAll w (fs st) uris, st).
Proof.
  induction uris as [| uri rest IH]; [reflexivity |].
  cbn [forPush]. unfold bind at 1. unfold bind at 1. rewrite readFile_run.
  unfold readAll. cbn [mapE]. fold (readAll w (fs st) rest).
  destruct (readFault w uri) as [e |]; [reflexivity |].
  destruct (fs st !! uri) as [content |]; [| reflexivity].
  unfold ret at 1. unfold bind at 1. rewrite IH.
  destruct (readAll w (fs st) rest); reflexivity.
Qed.

Lemma readWorkspaceFiles_run w st :
  readWorkspaceFiles w st =
  match findFiles w with
  | inl e => (inl e, st)
  | inr uris => (readAll w (fs st) (take 10 uris), st)
  end.
Proof.
  unfold readWorkspaceFiles, bind.
  destruct (findFiles w) as [e | uris]; [reflexivity |].
  simpl. apply forPush_readFile.
Qed.

(** What a review does, stage by stage: the state it ends in and whether
    it throws. *)
Lemma reviewBranch_run w st :
  reviewBranch w st =
  let st1 := withReply st (Some "Checking your code, please wait...") in
  let st2 := withReply st1 (Some "Reviewing workspace files...") in
  match findFiles w with
  | inl e => (inl e, st1)
  | inr uris =>
      match readAll w (fs st) (take 10 uris) with
      | inl e => (inl e, st1)
      | inr [] =>
          (inr tt, withReply st2 (Some "No supported code files found in this workspace."))
      | inr files =>
          match generateContent w [Turn user (buildReviewPrompt files)] with
          | inl e => (inl e, st2)
          | inr raw =>
              match extractJson raw with
              | inl _ => (inr tt, withReply st2 raw)
              | inr cleanJson =>
                  match JSON_parse cleanJson with
                  | None => (inr tt, withReply st2 raw)
                  | Some parsed => (inr tt, afterParse st2 raw parsed)
                  end
              end
          end
      end
  end.
Proof.
  unfold reviewBranch. unfold bind at 1. unfold postMessage at 1, modify.
  unfold bind at 1. rewrite readWorkspaceFiles_run.
  destruct (findFiles w) as [e | uris]; [reflexivity |].
  cbn [fs]. destruct (readAll w (fs st) (take 10 uris)) as [e | files]; [reflexivity |].
  unfold bind at 1. unfold postMessage at 1, modify.
  destruct files as [| file files]; [reflexivity |].
  unfold bind at 1.
  destruct (generateContent w [Turn user (buildReviewPrompt (file :: files))])
    as [e | raw]; [reflexivity |].
  simpl lift at 1. unfold ret at 1. unfold tryCatch, bind.
  destruct (extractJson raw) as [e | cleanJson]; [reflexivity |].
  simpl. unfold parseJson.
  destruct (JSON_parse cleanJson) as [parsed |]; [| reflexivity].
  unfold afterParse. simpl.
  destruct (prop parsed "files") as [e | files']; [reflexivity |].
  simpl. destruct (noFiles files'); reflexivity.
Qed.

Lemma onDidReceiveMessage_review w msg st :
  type msg = "userMessage" -> hasClient w ->
  isCodeReviewRequest (text msg) = true ->
  onDidReceiveMessage w msg st = snd (tryCatch (reviewBranch w) reportError st).
Proof.
  intros Ht Hc Hr. rewrite (onDidReceiveMessage_user _ _ _ Ht).
  unfold tryCatch. rewrite handleMessage_review by assumption. reflexivity.
Qed.

Lemma reviewBranch_preserves_fs w : preserves fs (reviewBranch w).
Proof.
  intros st. rewrite reviewBranch_run. cbv zeta. unfold afterParse.
  review_cases; reflexivity.
Qed.

Lemma reviewBranch_preserves_history w : preserves history (reviewBranch w).
Proof.
  intros st. rewrite reviewBranch_run. cbv zeta. unfold afterParse.
  review_cases; reflexivity.
Qed.

Lemma reviewBranch_first_reply w st :
  exists more,
    posted (snd (tryCatch (reviewBranch w) reportError st))
    = posted st ++ Some "Checking your code, please wait..." :: more.
Proof.
  unfold tryCatch. rewrite reviewBranch_run. cbv zeta. unfold afterParse.
  review_cases; simpl; rewrite <- ?app_assoc; simpl; eauto.
Qed.

(** C7. A message classified as a review request is handled by the
    review branch whatever is pending and whatever its text, the tests for
    "yes", "apply" and "no" coming after that branch in the handler: no file
    is written, the history is left alone, and the first reply is the one
    that opens a review. *)
Theorem review_precedes_gate w msg st :
  type msg = "userMessage" -> hasClient w ->
  isCodeReviewRequest (text msg) = true ->
  let st' := onDidReceiveMessage w msg st in
  st' = snd (tryCatch (reviewBranch w) reportError st)
  /\ fs st' = fs st
  /\ history st' = history st
  /\ exists more,
       posted st' = posted st ++ Some "Checking your code, please wait..." :: more.
Proof.
  intros Ht Hc Hr st'. unfold st'.
  rewrite onDidReceiveMessage_review by assumption.
  split; [reflexivity |]. split; [| split].
  - apply (respects_tryCatch (same fs)); [apply reviewBranch_preserves_fs |].
    intros e. unfold reportError. respects_auto.
  - apply (respects_tryCatch (same history)); [apply reviewBranch_preserves_history |].
    intros e. unfold reportError. respects_auto.
  - apply reviewBranch_first_reply.
Qed.

(** C8. When a review reaches the model and the answer parses to an
    object whose [files] field is absent or an empty list, the handler
    leaves nothing pending (the gate is [Idle], also when a proposal was
    pending before) and its last reply is the "no issues" message. *)
Theorem empty_proposal_is_discarded w msg st uris files raw cleanJson props :
  type msg = "userMessage" -> hasClient w ->
  isCodeReviewRequest (text msg) = true ->
  findFiles w = inr uris ->
  readAll w (fs st) (take 10 uris) = inr files ->
  files <> [] ->
  generateContent w [Turn user (buildReviewPrompt files)] = inr raw ->
  extractJson raw = inr cleanJson ->
  JSON_parse cleanJson = Some (JObj props) ->
  lookupProp "files" props = None \/ lookupProp "files" props = Some (JArr []) ->
  let st' := onDidReceiveMessage w msg st in
  pendingFixes st' = JNull
  /\ gateOf st' = Idle
  /\ posted st' = posted st ++ [ Some "Checking your code, please wait...";
                                 Some "Reviewing workspace files...";
                                 Some "✅ No issues found. Your code looks good." ].
Proof.
  intros Ht Hc Hr Hfind Hread Hne Hgen Hextract Hparse Hfiles st'. unfold st'.
  rewrite onDidReceiveMessage_review by assumption.
  unfold tryCatch. rewrite reviewBranch_run. cbv zeta.
  rewrite Hfind, Hread. destruct files as [| file files]; [contradiction |].
  rewrite Hgen, Hextract, Hparse. unfold afterParse. cbn [prop].
  assert (Hno : noFiles (lookupProp "files" props) = true)
    by (destruct Hfiles as [-> | ->]; reflexivity).
  rewrite Hno. cbn [snd]. split; [reflexivity |]. split; [reflexivity |].
  cbn [posted withReply withPending]. rewrite <- !app_assoc. reflexivity.
Qed.

End Review.

(** ** When the pending proposal is cleared *)

Section Clearing.

Context `{engine : Engine}.

Lemma getGeminiClient_cases w :
  hasClient w \/ (~ hasClient w /\ exists e, forall st, getGeminiClient w st = (inl e, st)).
Proof.
  unfold hasClient, getGeminiClient.
  destruct (apiKey w) as [[| a key] |].
  - right. split; [intros [(k & Hk & Hne) _]; congruence | eauto].
  - destruct (importGenAI w) as [e |].
    + right. split; [intros [_ H]; discriminate | eauto].
    + left. split; [| reflexivity]. eexists. split; [reflexivity | discriminate].
  - right. split; [intros [(k & Hk & Hne) _]; discriminate | eauto].
Qed.

Lemma gateOf_awaiting st :
  gateOf st = AwaitingConfirmation -> truthy (Some (pendingFixes st)) = true.
Proof. unfold gateOf. destruct (truthy _); [reflexivity | discriminate]. Qed.

Lemma emptyProposal_false_truthy parsed :
  emptyProposal parsed = false -> truthy (Some parsed) = true.
Proof.
  destruct parsed; unfold emptyProposal; cbn; intros H;
    first [discriminate H | reflexivity].
Qed.

Lemma gateOf_withPending st p :
  gateOf (withPending st p) = if truthy (Some p) then AwaitingConfirmation else Idle.
Proof. reflexivity. Qed.

Lemma gateOf_afterParse st raw parsed :
  gateOf (afterParse st raw parsed) = if emptyProposal parsed then Idle else AwaitingConfirmation.
Proof.
  destruct (emptyProposal parsed) eqn:Hempty.
  - unfold emptyProposal in Hempty. unfold afterParse.
    destruct parsed; cbn in *; try reflexivity.
    rewrite Hempty. reflexivity.
  - pose proof (emptyProposal_false_truthy _ Hempty) as Htruthy.
    unfold emptyProposal in Hempty. unfold afterParse.
    destruct (prop parsed "files") as [e | files]; [discriminate |].
    rewrite Hempty. unfold gateOf. cbn [pendingFixes withReply withPending].
    rewrite Htruthy. reflexivity.
Qed.

Lemma not_both_tokens lowered :
  existsb (String.eqb lowered) ["yes"; "apply"] = true -> lowered <> "no".
Proof. intros Hy ->. discriminate. Qed.

(** A review clears what was pending exactly when it reaches the model
    and the answer parses to an empty proposal. *)
Lemma review_clears_iff w st :
  gateOf st = AwaitingConfirmation ->
  gateOf (snd (tryCatch (reviewBranch w) reportError st)) = Idle <->
  exists uris files raw cleanJson parsed,
    findFiles w = inr uris
    /\ readAll w (fs st) (take 10 uris) = inr files
    /\ files <> []
    /\ generateContent w [Turn user (buildReviewPrompt files)] = inr raw
    /\ extractJson raw = inr cleanJson
    /\ JSON_parse cleanJson = Some parsed
    /\ emptyProposal parsed = true.
Proof.
  intros Hgate. unfold tryCatch. rewrite reviewBranch_run. cbv zeta.
  destruct (findFiles w) as [e | uris] eqn:Hfind.
  { split; [intros Hidle; change (gateOf st = Idle) in Hidle; congruence |].
    intros (? & ? & ? & ? & ? & H & _). discriminate. }
  destruct (readAll w (fs st) (take 10 uris)) as [e | files] eqn:Hread.
  { split; [intros Hidle; change (gateOf st = Idle) in Hidle; congruence |].
    intros (? & ? & ? & ? & ? & H & H' & _). congruence. }
  destruct files as [| file files].
  { split; [intros Hidle; change (gateOf st = Idle) in Hidle; congruence |].
    intros (? & ? & ? & ? & ? & H & H' & Hne & _). congruence. }
  destruct (generateContent w [Turn user (buildReviewPrompt (file :: files))])
    as [e | raw] eqn:Hgen.
  { split; [intros Hidle; change (gateOf st = Idle) in Hidle; congruence |].
    intros (? & ? & ? & ? & ? & H & H' & _ & H'' & _). congruence. }
  destruct (extractJson raw) as [e | cleanJson] eqn:Hextract.
  { split; [intros Hidle; change (gateOf st = Idle) in Hidle; congruence |].
    intros (? & ? & ? & ? & ? & H & H' & _ & H'' & H3 & _). congruence. }
  destruct (JSON_parse cleanJson) as [parsed |] eqn:Hparse.
  2:{ split; [intros Hidle; change (gateOf st = Idle) in Hidle; congruence |].
      intros (? & ? & ? & ? & ? & H & H' & _ & H'' & H3 & H4 & _). congruence. }
  cbn [snd]. rewrite gateOf_afterParse.
  split.
  - intros Hidle.
    destruct (emptyProposal parsed) eqn:Hempty; [| discriminate].
    exists uris, (file :: files), raw, cleanJson, parsed.
    repeat split; try assumption. discriminate.
  - intros (uris' & files' & raw' & cleanJson' & parsed' & H1 & H2 & _ & H3 & H4 & H5 & H6).
    assert (parsed' = parsed) as -> by congruence.
    rewrite H6. reflexivity.
Qed.

(** A confirmation clears what was pending exactly when every write is
    made and the summary is built. *)
Lemma confirm_clears_iff w st :
  gateOf st = AwaitingConfirmation ->
  gateOf (snd (tryCatch (applyBranch w) reportError st)) = Idle <->
  fst (applyFixes w (pendingFixes st) st) = inr tt
  /\ exists summary, buildFixSummary (pendingFixes st) = inr summary.
Proof.
  intros Hgate. pose proof (gateOf_awaiting _ Hgate) as Htruthy.
  pose proof (applyFixes_preserves pendingFixes w (pendingFixes st)
                (fun _ _ => eq_refl) st) as Hkeep.
  unfold same in Hkeep.
  unfold tryCatch, applyBranch, bind, get.
  destruct (applyFixes w (pendingFixes st) st) as [[e | []] st1]; cbn [fst snd] in *.
  - split; [| intros [H _]; discriminate].
    intros Hidle. unfold gateOf in Hidle. cbn [snd reportError] in Hidle.
    change (gateOf st1 = Idle) in Hidle. unfold gateOf in Hidle.
    rewrite Hkeep, Htruthy in Hidle. discriminate.
  - rewrite Hkeep.
    destruct (buildFixSummary (pendingFixes st)) as [e | summary].
    + split; [| intros [_ [? H]]; discriminate].
      intros Hidle. change (gateOf st1 = Idle) in Hidle. unfold gateOf in Hidle.
      rewrite Hkeep, Htruthy in Hidle. discriminate.
    + split; [intros _; split; eauto | intros _; reflexivity].
Qed.

(** C5, as the code has it.  While a proposal is pending, handling a
    message leaves none pending in exactly three cases, each of a user
    message handled with a client at hand: a confirmation applied in full
    (every write made and the summary built), the rejection "no", and a
    review whose answer parses to an empty proposal.  Closing the panel
    empties the history. *)
Theorem pending_cleared_exactly_when w msg st :
  gateOf st = AwaitingConfirmation ->
  (gateOf (onDidReceiveMessage w msg st) = Idle <->
     type msg = "userMessage" /\ hasClient w
     /\ (appliedInFull w msg st \/ rejected msg \/ reviewedEmpty w msg st))
  /\ history (onDidDispose st) = [].
Proof.
  intros Hgate. split; [| reflexivity].
  pose proof (gateOf_awaiting _ Hgate) as Htruthy.
  destruct (String.eqb_spec (type msg) "userMessage") as [Ht | Ht].
  2:{ unfold onDidReceiveMessage. apply String.eqb_neq in Ht. rewrite Ht. simpl.
      apply String.eqb_neq in Ht.
      split; [congruence | intros [H _]; contradiction]. }
  destruct (getGeminiClient_cases w) as [Hc | [Hnc [e He]]].
  2:{ rewrite (onDidReceiveMessage_user _ _ _ Ht).
      unfold tryCatch, handleMessage, bind. rewrite He.
      split; [| intros (_ & H & _); contradiction].
      intros Hidle. change (gateOf st = Idle) in Hidle. congruence. }
  unfold appliedInFull, rejected, reviewedEmpty.
  destruct (isCodeReviewRequest (text msg)) eqn:Hr.
  - rewrite onDidReceiveMessage_review by assumption.
    rewrite (review_clears_iff _ _ Hgate).
    split.
    + intros H. split; [assumption |]. split; [assumption |].
      right. right. split; [reflexivity | exact H].
    + intros (_ & _ & [(H & _) | [(H & _) | (_ & H)]]); [discriminate.. | exact H].
  - destruct (existsb (String.eqb (toLowerCase (text msg))) ["yes"; "apply"]) eqn:Hy.
    + rewrite onDidReceiveMessage_confirm by assumption.
      rewrite (confirm_clears_iff _ _ Hgate).
      split.
      * intros H. split; [assumption |]. split; [assumption |].
        left. split; [reflexivity |]. split; [reflexivity | exact H].
      * intros (_ & _ & [(_ & _ & H) | [(_ & H) | (H & _)]]);
          [exact H | | discriminate].
        exfalso. exact (not_both_tokens _ Hy H).
    + destruct (String.eqb_spec (toLowerCase (text msg)) "no") as [Hn | Hn].
      * rewrite (onDidReceiveMessage_user _ _ _ Ht). unfold tryCatch.
        rewrite handleMessage_reject by assumption.
        split; [| reflexivity].
        intros _. split; [assumption |]. split; [assumption |].
        right. left. split; [reflexivity | assumption].
      * rewrite onDidReceiveMessage_chat by (try assumption; right; split; assumption).
        unfold tryCatch. rewrite chatBranch_run. cbv zeta.
        split.
        -- intros Hidle. exfalso.
           destruct (generateContent w (history st ++ [Turn user (text msg)]));
             change (gateOf st = Idle) in Hidle; congruence.
        -- intros (_ & _ & [(_ & H & _) | [(_ & H) | (H & _)]]);
             [discriminate | contradiction | discriminate].
Qed.

End Clearing.

(** C5 fails as stated.  With a proposal pending, a review whose answer
    is an empty proposal, which is neither an application, nor a rejection,
    nor the end of the session, leaves nothing pending; and closing the
    panel empties the history but leaves the proposal pending. *)
Lemma pending_cleared_on_three_events_counterexample :
  let st := withPending oneFileWorkspace oneFile in
  gateOf st = AwaitingConfirmation
  /\ gateOf (@onDidReceiveMessage demoEngine (reviewWorld emptyAnswer)
               (userMessage "Review my code") st) = Idle
  /\ history (onDidDispose st) = []
  /\ pendingFixes (onDidDispose st) = oneFile
  /\ gateOf (onDidDispose st) = AwaitingConfirmation.
Proof. repeat split. Qed.

Lemma pending_cleared_exactly_when_witness :
  let st := withPending oneFileWorkspace oneFile in
  let w := reviewWorld emptyAnswer in
  let msg := userMessage "no" in
  (gateOf (@onDidReceiveMessage demoEngine w msg st) = Idle <->
     type msg = "userMessage" /\ hasClient w
     /\ (@appliedInFull demoEngine w msg st \/ @rejected demoEngine msg
         \/ @reviewedEmpty demoEngine w msg st))
  /\ history (onDidDispose st) = [].
Proof.
  intros st w msg.
  apply (@pending_cleared_exactly_when demoEngine w msg st).
  reflexivity.
Defined.

Lemma review_precedes_gate_witness :
  let w := reviewWorld emptyAnswer in
  let msg := userMessage "please fix it" in
  let st := withPending oneFileWorkspace oneFile in
  let st' := @onDidReceiveMessage demoEngine w msg st in
  st' = snd (tryCatch (@reviewBranch demoEngine w) reportError st)
  /\ fs st' = fs st
  /\ history st' = history st
  /\ exists more,
       posted st' = posted st ++ Some "Checking your code, please wait..." :: more.
Proof.
  intros w msg st.
  apply (@review_precedes_gate demoEngine w msg st).
  - reflexivity.
  - split; [exists "key"; split; [reflexivity | discriminate] | reflexivity].
  - reflexivity.
Defined.

Lemma empty_proposal_is_discarded_witness :
  let w := reviewWorld emptyAnswer in
  let msg := userMessage "Review my code" in
  let st := withPending oneFileWorkspace oneFile in
  let st' := @onDidReceiveMessage demoEngine w msg st in
  pendingFixes st' = JNull
  /\ gateOf st' = Idle
  /\ posted st' = posted st ++ [ Some "Checking your code, please wait...";
                                 Some "Reviewing workspace files...";
                                 Some "✅ No issues found. Your code looks good." ].
Proof.
  intros w msg st.
  apply (@empty_proposal_is_discarded demoEngine w msg st
           ["/ws/a.js"] [("/ws/a.js", "var x")] (Some emptyAnswer)
           ("{" +:+ quoted "files" +:+ ":[]}") [("files", JArr [])]).
  - reflexivity.
  - split; [exists "key"; split; [reflexivity | discriminate] | reflexivity].
  - reflexivity.
  - reflexivity.
  - reflexivity.
  - discriminate.
  - reflexivity.
  - reflexivity.
  - reflexivity.
  - right. reflexivity.
Defined.

(** * Further properties of the code *)

(** ** Strings *)

Lemma append_cons (x : ascii) (a b : string) : String x a +:+ b = String x (a +:+ b).
Proof. reflexivity. Qed.

Lemma append_nil_l (a : string) : "" +:+ a = a.
Proof. reflexivity. Qed.

Lemma append_assoc (a b c : string) : (a +:+ b) +:+ c = a +:+ (b +:+ c).
Proof.
  induction a as [| x a IH]; [reflexivity |].
  rewrite !append_cons, IH. reflexivity.
Qed.

Lemma append_nil_r (a : string) : a +:+ "" = a.
Proof.
  induction a as [| x a IH]; [reflexivity |].
  rewrite append_cons, IH. reflexivity.
Qed.

Lemma length_append (a b : string) :
  String.length (a +:+ b) = String.length a + String.length b.
Proof.
  induction a as [| x a IH]; [reflexivity |].
  rewrite append_cons. simpl. rewrite IH. reflexivity.
Qed.

Lemma isPrefix_iff (p s : string) : isPrefix p s = true <-> exists rest, s = p +:+ rest.
Proof.
  revert s. induction p as [| a p IH]; intros s; simpl.
  - split; [intros _; exists s; reflexivity | reflexivity].
  - destruct s as [| b s]; [split; [discriminate | intros [r Hr]; discriminate] |].
    destruct (Ascii.eqb_spec a b) as [-> | Hne].
    + rewrite IH. split; intros [r Hr]; exists r; rewrite append_cons in *; congruence.
    + split; [discriminate | intros [r Hr]; rewrite append_cons in Hr; congruence].
Qed.

(** [includes] is the substring test. *)
Lemma includes_iff (needle hay : string) :
  includes needle hay = true <-> exists before after, hay = before +:+ needle +:+ after.
Proof.
  induction hay as [| b hay IH]; simpl.
  - rewrite orb_false_r, isPrefix_iff. split.
    + intros [r Hr]. exists "", r. exact Hr.
    + intros (before & after & H). destruct before; [eauto | discriminate].
  - rewrite orb_true_iff, isPrefix_iff, IH. split.
    + intros [[r Hr] | (before & after & H)].
      * exists "", r. exact Hr.
      * exists (String b before), after. rewrite append_cons, H. reflexivity.
    + intros (before & after & H). destruct before as [| x before].
      * left. eauto.
      * right. rewrite append_cons in H. injection H as _ H. eauto.
Qed.

Lemma includes_trans (a b c : string) :
  includes a b = true -> includes b c = true -> includes a c = true.
Proof.
  rewrite !includes_iff. intros (p & q & ->) (p' & q' & ->).
  exists (p' +:+ p), (q +:+ q'). rewrite !append_assoc. reflexivity.
Qed.

Lemma includes_join (sep x : string) (parts : list string) :
  In x parts -> includes x (join sep parts) = true.
Proof.
  intros Hin. apply includes_iff.
  induction parts as [| p rest IH]; [contradiction |].
  destruct Hin as [-> | Hin].
  - destruct rest as [| p' rest'].
    + exists "", "". simpl. rewrite append_nil_r. reflexivity.
    + exists "", (sep +:+ join sep (p' :: rest')). reflexivity.
  - destruct (IH Hin) as (before & after & Heq).
    destruct rest as [| p' rest']; [contradiction |].
    exists (p +:+ sep +:+ before), after.
    change (join sep (p :: p' :: rest')) with (p +:+ sep +:+ join sep (p' :: rest')).
    rewrite Heq, !append_assoc. reflexivity.
Qed.

Lemma indexOf_append_none (c : ascii) (a b : string) :
  indexOf c a = None ->
  indexOf c (a +:+ b) = (fun i => String.length a + i) <$> indexOf c b.
Proof.
  induction a as [| x a IH]; intros Hnone.
  - rewrite append_nil_l. destruct (indexOf c b); reflexivity.
  - rewrite append_cons. simpl in *.
    destruct (Ascii.eqb x c); [discriminate |].
    destruct (indexOf c a); [discriminate |].
    rewrite IH by reflexivity. destruct (indexOf c b); reflexivity.
Qed.

Lemma lastIndexOf_append (c : ascii) (a b : string) :
  lastIndexOf c (a +:+ b) =
  match lastIndexOf c b with
  | Some i => Some (String.length a + i)
  | None => lastIndexOf c a
  end.
Proof.
  induction a as [| x a IH].
  - rewrite append_nil_l. destruct (lastIndexOf c b); reflexivity.
  - rewrite append_cons. simpl. rewrite IH.
    destruct (lastIndexOf c b); reflexivity.
Qed.

Lemma substring_skip (a b : string) (n : nat) :
  String.substring (String.length a) n (a +:+ b) = String.substring 0 n b.
Proof. induction a as [| x a IH]; [reflexivity | rewrite append_cons; exact IH]. Qed.

Lemma substring_prefix (a b : string) :
  String.substring 0 (String.length a) (a +:+ b) = a.
Proof.
  induction a as [| x a IH].
  - destruct b; reflexivity.
  - rewrite append_cons. simpl. rewrite IH. reflexivity.
Qed.

Lemma substring_none (n : nat) (s : string) : String.substring n 0 s = "".
Proof.
  revert n. induction s as [| x s IH]; intros [| n]; simpl; try reflexivity.
  apply IH.
Qed.

(** ** Extracting the JSON of an answer *)

(** X1. [extractJson] strips the prose around an object: when no opening
    brace comes before the object and no closing brace after it, the result
    is the object's text, from its opening to its closing brace. *)
Theorem extractJson_strips_prose (before body after : string) :
  indexOf "{" before = None ->
  lastIndexOf "}" after = None ->
  extractJson (Some (before +:+ "{" +:+ body +:+ "}" +:+ after))
  = inr ("{" +:+ body +:+ "}").
Proof.
  intros Hbefore Hafter. unfold extractJson.
  rewrite (indexOf_append_none _ _ _ Hbefore).
  change ("{" +:+ body +:+ "}" +:+ after) with (String "{" (body +:+ "}" +:+ after)).
  cbn [indexOf Ascii.eqb Bool.eqb fmap option_fmap option_map].
  replace (before +:+ String "{" (body +:+ "}" +:+ after))
    with ((before +:+ "{" +:+ body) +:+ ("}" +:+ after))
    by (rewrite !append_assoc; reflexivity).
  rewrite lastIndexOf_append.
  change ("}" +:+ after) with (String "}" after).
  cbn [lastIndexOf]. rewrite Hafter. cbn [Ascii.eqb Bool.eqb].
  unfold slice.
  replace ((before +:+ "{" +:+ body) +:+ String "}" after)
    with (before +:+ (("{" +:+ body +:+ "}") +:+ after))
    by (rewrite !append_assoc; reflexivity).
  rewrite length_append.
  replace (String.length before + String.length ("{" +:+ body) + 0 + 1
           - (String.length before + 0))
    with (String.length ("{" +:+ body +:+ "}")).
  2:{ change ("{" +:+ body +:+ "}") with (String "{" (body +:+ "}")).
      change ("{" +:+ body) with (String "{" body).
      simpl. rewrite length_append. simpl. lia. }
  rewrite Nat.add_0_r, substring_skip, substring_prefix. reflexivity.
Qed.

(** X2. When the last closing brace of an answer comes before its first
    opening brace, [extractJson] does not throw: it returns the empty
    text. *)
Theorem extractJson_crossed_braces (text : string) (first last : nat) :
  indexOf "{" text = Some first ->
  lastIndexOf "}" text = Some last ->
  last < first ->
  extractJson (Some text) = inr "".
Proof.
  intros Hfirst Hlast Hlt. unfold extractJson, slice. rewrite Hfirst, Hlast.
  replace (last + 1 - first) with 0 by lia.
  rewrite substring_none. reflexivity.
Qed.

(** ** The review prompt *)

(** X3. The review prompt shows every file it is given, as a block of the
    form [--- path ---] followed by the file's content on the next line. *)
Theorem prompt_shows_every_file (files : list (string * string)) (f : string * string) :
  In f files -> includes (fileBlock f) (buildReviewPrompt files) = true.
Proof.
  intros Hin.
  apply (includes_trans _ (join nl (List.map fileBlock files))).
  - apply includes_join. apply in_map. exact Hin.
  - unfold buildReviewPrompt. apply includes_join.
    change (fun f0 : string * string =>
              nl +:+ "--- " +:+ fst f0 +:+ " ---" +:+ nl +:+ snd f0 +:+ nl)
      with fileBlock.
    do 21 right. left. reflexivity.
Qed.

(** ** The summary of the fixes *)

Lemma lastSegment_after_separator (c : ascii) (acc dir rest : string) :
  c = "/"%char \/ c = "\"%char ->
  lastSegment acc (dir +:+ String c rest) = lastSegment "" rest.
Proof.
  intros Hc. revert acc. induction dir as [| x dir IH]; intros acc.
  - rewrite append_nil_l. simpl. destruct Hc as [-> | ->]; reflexivity.
  - rewrite append_cons. simpl.
    destruct (Ascii.eqb x "/" || Ascii.eqb x "\"); apply IH.
Qed.

Lemma lastSegment_noSeparator (acc name : string) :
  noSeparator name = true -> lastSegment acc name = acc +:+ name.
Proof.
  revert acc. induction name as [| x name IH]; intros acc Hno; simpl in *.
  - rewrite append_nil_r. reflexivity.
  - apply andb_true_iff in Hno as [Hx Hno]. apply negb_true_iff in Hx.
    rewrite Hx, (IH _ Hno), append_assoc. reflexivity.
Qed.

(** X4. The summary line of an entry names the file by the part of its
    path after the last slash or backslash, and lists its first two issues
    only, joined by a comma. *)
Theorem summaryLine_basename
    (props : list (string * json)) (c : ascii) (dir name : string) (issues : list json) :
  c = "/"%char \/ c = "\"%char ->
  noSeparator name = true ->
  lookupProp "path" props = Some (JStr (dir +:+ String c name)) ->
  lookupProp "issues" props = Some (JArr issues) ->
  summaryLine (JObj props)
  = inr ("• " +:+ name +:+ " – " +:+ join ", " (List.map joinItem (take 2 issues))).
Proof.
  intros Hc Hname Hpath Hissues. unfold summaryLine. cbn [prop].
  rewrite Hpath, Hissues.
  rewrite (lastSegment_after_separator _ _ _ _ Hc), (lastSegment_noSeparator _ _ Hname).
  reflexivity.
Qed.

(** ** Trimming the history *)

(** X5. [trimHistory] keeps the latest entries: the history is cut at the
    front, down to [2 * MAX_TURNS] entries when it was longer, and left as
    it is otherwise. *)
Theorem trimmed_keeps_latest (h : list turn) :
  exists dropped,
    h = dropped ++ trimmed h
    /\ length (trimmed h) = Nat.min (length h) (2 * MAX_TURNS).
Proof.
  unfold trimmed. destruct (Nat.ltb_spec (MAX_TURNS * 2) (length h)) as [Hlt | Hge].
  - exists (take (length h - MAX_TURNS * 2) h). split.
    + symmetry. apply take_drop.
    + rewrite length_drop. unfold MAX_TURNS in *. lia.
  - exists []. split; [reflexivity |]. unfold MAX_TURNS in *. lia.
Qed.

(** Induction over a history made of whole exchanges. *)
Lemma paired_ind (P : list turn -> Prop) :
  P [] ->
  (forall t1 t2 rest, paired rest = true -> P rest ->
     P (Turn user t1 :: Turn model t2 :: rest)) ->
  forall h, paired h = true -> P h.
Proof.
  intros Hnil Hcons h. remember (length h) as n eqn:Hn. revert h Hn.
  induction n as [n IH] using lt_wf_ind. intros h Hn Hp.
  destruct h as [| [[] t1] [| [[] t2] rest]]; try discriminate; [exact Hnil |].
  apply Hcons; [exact Hp |].
  apply (IH (length rest)); [subst n; simpl; lia | reflexivity | exact Hp].
Qed.

Lemma paired_app (a b : list turn) :
  paired a = true -> paired (a ++ b) = paired b.
Proof.
  revert a. apply (paired_ind (fun a => paired (a ++ b) = paired b)); [reflexivity |].
  intros t1 t2 rest _ IH. exact IH.
Qed.

Lemma paired_even (h : list turn) : paired h = true -> Nat.even (length h) = true.
Proof.
  revert h. apply (paired_ind (fun h => Nat.even (length h) = true)); [reflexivity |].
  intros t1 t2 rest _ IH. exact IH.
Qed.

Lemma paired_split (h : list turn) (n : nat) :
  paired h = true -> Nat.even n = true ->
  paired (take n h) = true /\ paired (drop n h) = true.
Proof.
  intros Hp. revert h Hp n.
  apply (paired_ind (fun h => forall n, Nat.even n = true ->
                       paired (take n h) = true /\ paired (drop n h) = true)).
  - intros n Hn. destruct n; split; reflexivity.
  - intros t1 t2 rest Hrest IH n Hn.
    destruct n as [| [| n]]; [split; [reflexivity | exact Hrest] | discriminate |].
    cbn [take drop paired]. apply IH. exact Hn.
Qed.

Lemma trimmed_paired_split (h : list turn) :
  paired h = true ->
  exists dropped,
    h = dropped ++ trimmed h
    /\ paired dropped = true
    /\ paired (trimmed h) = true.
Proof.
  intros Hp. unfold trimmed.
  destruct (Nat.ltb_spec (MAX_TURNS * 2) (length h)) as [Hlt | Hge].
  - exists (take (length h - MAX_TURNS * 2) h).
    split; [symmetry; apply take_drop |].
    apply paired_split; [exact Hp |].
    pose proof (paired_even _ Hp) as Heven.
    apply Nat.even_spec in Heven as [m Hm]. apply Nat.even_spec.
    exists (m - MAX_TURNS). unfold MAX_TURNS in *. lia.
  - exists []. repeat split. exact Hp.
Qed.

(** X6. On a history made of whole exchanges, [trimHistory] removes whole
    exchanges: what it drops and what it keeps are both made of user turns
    each followed by the model's turn. *)
Theorem trimmed_drops_whole_exchanges (h : list turn) :
  paired h = true ->
  exists dropped,
    h = dropped ++ trimmed h
    /\ paired dropped = true
    /\ paired (trimmed h) = true.
Proof. exact (trimmed_paired_split h). Qed.

(** ** The branches of the handler *)

Section Handler.

Context `{engine : Engine}.

Lemma reportError_preserves {X} (proj : state -> X) e :
  (forall st t, proj (withReply st t) = proj st) -> preserves proj (reportError e).
Proof. intros Hproj st. apply Hproj. Qed.

Lemma rejectBranch_run st :
  rejectBranch st
  = (inr tt, withReply (withPending st JNull) (Some "Okay, fixes were not applied.")).
Proof. reflexivity. Qed.

(** What a confirmation does, by the outcome of the writes and of the
    summary. *)
Lemma applyBranch_run w st :
  applyBranch w st =
  match applyFixes w (pendingFixes st) st with
  | (inl e, st1) => (inl e, st1)
  | (inr _, st1) =>
      match buildFixSummary (pendingFixes st1) with
      | inl e => (inl e, st1)
      | inr summary =>
          (inr tt,
           withPending
             (withReply st1
                (Some ("✅ Fixes applied successfully." +:+ nl +:+ nl +:+ "Summary:" +:+ nl
                       +:+ summary)))
             JNull)
      end
  end.
Proof.
  unfold applyBranch, bind, get.
  destruct (applyFixes w (pendingFixes st) st) as [[e | []] st1]; [reflexivity |].
  destruct (buildFixSummary (pendingFixes st1)); reflexivity.
Qed.

Lemma applyFixes_keeps w data st :
  history (snd (applyFixes w data st)) = history st
  /\ pendingFixes (snd (applyFixes w data st)) = pendingFixes st
  /\ posted (snd (applyFixes w data st)) = posted st.
Proof.
  repeat split.
  - apply (applyFixes_preserves history). reflexivity.
  - apply (applyFixes_preserves pendingFixes). reflexivity.
  - apply (applyFixes_preserves posted). reflexivity.
Qed.

Lemma chatBranch_keeps w msg :
  forall st,
    fs (snd (tryCatch (chatBranch w msg) reportError st)) = fs st
    /\ pendingFixes (snd (tryCatch (chatBranch w msg) reportError st)) = pendingFixes st.
Proof.
  intros st. unfold tryCatch. rewrite chatBranch_run. cbv zeta.
  destruct (generateContent w (history st ++ [Turn user (text msg)])); split; reflexivity.
Qed.

(** The six ways a message is handled. *)
Lemma onDidReceiveMessage_cases w msg st :
  let st' := onDidReceiveMessage w msg st in
  (type msg <> "userMessage" /\ st' = st)
  \/ (type msg = "userMessage" /\ ~ hasClient w
      /\ exists e, st' = withReply st (Some ("⚠️ Error: " +:+ message e)))
  \/ (type msg = "userMessage" /\ hasClient w
      /\ ((isCodeReviewRequest (text msg) = true
           /\ st' = snd (tryCatch (reviewBranch w) reportError st))
          \/ (isCodeReviewRequest (text msg) = false
              /\ truthy (Some (pendingFixes st)) = true
              /\ existsb (String.eqb (toLowerCase (text msg))) ["yes"; "apply"] = true
              /\ st' = snd (tryCatch (applyBranch w) reportError st))
          \/ (isCodeReviewRequest (text msg) = false
              /\ truthy (Some (pendingFixes st)) = true
              /\ toLowerCase (text msg) = "no"
              /\ st' = withReply (withPending st JNull)
                         (Some "Okay, fixes were not applied."))
          \/ (isCodeReviewRequest (text msg) = false
              /\ (truthy (Some (pendingFixes st)) = false
                  \/ (existsb (String.eqb (toLowerCase (text msg))) ["yes"; "apply"] = false
                      /\ toLowerCase (text msg) <> "no"))
              /\ st' = snd (tryCatch (chatBranch w msg) reportError st)))).
Proof.
  intros st'. unfold st'.
  destruct (String.eqb_spec (type msg) "userMessage") as [Ht | Ht].
  2:{ left. split; [exact Ht |]. unfold onDidReceiveMessage.
      apply String.eqb_neq in Ht. rewrite Ht. reflexivity. }
  right. destruct (getGeminiClient_cases w) as [Hc | [Hnc [e He]]].
  2:{ left. split; [exact Ht |]. split; [exact Hnc |]. exists e.
      rewrite (onDidReceiveMessage_user _ _ _ Ht).
      unfold tryCatch, handleMessage, bind. rewrite He. reflexivity. }
  right. split; [exact Ht |]. split; [exact Hc |].
  destruct (isCodeReviewRequest (text msg)) eqn:Hr.
  { left. split; [reflexivity |]. apply onDidReceiveMessage_review; assumption. }
  right.
  destruct (truthy (Some (pendingFixes st))) eqn:Hp.
  2:{ right. right. split; [reflexivity |]. split; [left; reflexivity |].
      apply onDidReceiveMessage_chat; auto. }
  destruct (existsb (String.eqb (toLowerCase (text msg))) ["yes"; "apply"]) eqn:Hy.
  { left. split; [reflexivity |]. split; [reflexivity |]. split; [reflexivity |].
    apply onDidReceiveMessage_confirm; assumption. }
  right. destruct (String.eqb_spec (toLowerCase (text msg)) "no") as [Hn | Hn].
  - left. split; [reflexivity |]. split; [reflexivity |]. split; [exact Hn |].
    rewrite (onDidReceiveMessage_user _ _ _ Ht). unfold tryCatch.
    rewrite handleMessage_reject by assumption. reflexivity.
  - right. split; [reflexivity |]. split; [right; split; [reflexivity | exact Hn] |].
    apply onDidReceiveMessage_chat; auto.
Qed.

(** X7. No file is written unless the user confirms: if handling a
    message changes any file of the workspace, the message was a user
    message "yes" or "apply" (in any letter case), not classified as a
    review request, received while a proposal was pending and a client was
    at hand. *)
Theorem writes_need_confirmation w msg st :
  fs (onDidReceiveMessage w msg st) <> fs st ->
  type msg = "userMessage"
  /\ hasClient w
  /\ isCodeReviewRequest (text msg) = false
  /\ truthy (Some (pendingFixes st)) = true
  /\ existsb (String.eqb (toLowerCase (text msg))) ["yes"; "apply"] = true.
Proof.
  intros Hchanged.
  destruct (onDidReceiveMessage_cases w msg st)
    as [[_ Heq] | [(_ & _ & e & Heq) | (Ht & Hc & Hcase)]].
  - rewrite Heq in Hchanged. contradiction.
  - rewrite Heq in Hchanged. contradiction.
  - destruct Hcase as [(_ & Heq) | [(Hr & Hp & Hy & _) | [(_ & _ & _ & Heq) | (_ & _ & Heq)]]].
    + exfalso. apply Hchanged. rewrite Heq.
      apply (respects_tryCatch (same fs)); [apply reviewBranch_preserves_fs |].
      intros e. apply reportError_preserves. reflexivity.
    + auto.
    + rewrite Heq in Hchanged. contradiction.
    + exfalso. apply Hchanged. rewrite Heq. apply chatBranch_keeps.
Qed.

Lemma gate_messages_keep_history_aux w msg st :
  isCodeReviewRequest (text msg) = true
  \/ (truthy (Some (pendingFixes st)) = true
      /\ (existsb (String.eqb (toLowerCase (text msg))) ["yes"; "apply"] = true
          \/ toLowerCase (text msg) = "no")) ->
  history (onDidReceiveMessage w msg st) = history st.
Proof.
  intros Hgate.
  destruct (onDidReceiveMessage_cases w msg st)
    as [[_ Heq] | [(_ & _ & e & Heq) | (Ht & Hc & Hcase)]];
    [rewrite Heq; reflexivity.. |].
  destruct Hcase as [(_ & Heq) | [(_ & _ & _ & Heq) | [(_ & _ & _ & Heq) | (Hr & Hchat & _)]]].
  - rewrite Heq.
    apply (respects_tryCatch (same history)); [apply reviewBranch_preserves_history |].
    intros e. apply reportError_preserves. reflexivity.
  - rewrite Heq. unfold tryCatch. rewrite applyBranch_run.
    destruct (applyFixes_keeps w (pendingFixes st) st) as (Hh & _ & _).
    destruct (applyFixes w (pendingFixes st) st) as [[e | []] st1]; cbn [snd] in *.
    + exact Hh.
    + destruct (buildFixSummary (pendingFixes st1)); exact Hh.
  - rewrite Heq. reflexivity.
  - exfalso. destruct Hgate as [Hrev | (Hp & [Hy | Hn])]; [congruence | |];
      destruct Hchat as [Hp' | (Hy' & Hn')]; congruence.
Qed.

(** X8. A review request, a confirmation and a rejection never enter the
    conversation: handling a message classified as a review request, or a
    "yes", "apply" or "no" received while a proposal is pending, leaves the
    history as it was. *)
Theorem gate_messages_keep_history w msg st :
  isCodeReviewRequest (text msg) = true
  \/ (truthy (Some (pendingFixes st)) = true
      /\ (existsb (String.eqb (toLowerCase (text msg))) ["yes"; "apply"] = true
          \/ toLowerCase (text msg) = "no")) ->
  history (onDidReceiveMessage w msg st) = history st.
Proof. exact (gate_messages_keep_history_aux w msg st). Qed.

(** X9. Only a review installs a proposal: after a message that is not
    classified as a review request, what is pending is what was pending
    before, or nothing. *)
Theorem only_review_installs_proposal w msg st :
  isCodeReviewRequest (text msg) = false ->
  pendingFixes (onDidReceiveMessage w msg st) = pendingFixes st
  \/ pendingFixes (onDidReceiveMessage w msg st) = JNull.
Proof.
  intros Hr.
  destruct (onDidReceiveMessage_cases w msg st)
    as [[_ Heq] | [(_ & _ & e & Heq) | (Ht & Hc & Hcase)]];
    [rewrite Heq; left; reflexivity.. |].
  destruct Hcase as [(Hr' & _) | [(_ & _ & _ & Heq) | [(_ & _ & _ & Heq) | (_ & _ & Heq)]]].
  - congruence.
  - rewrite Heq. unfold tryCatch. rewrite applyBranch_run.
    destruct (applyFixes_keeps w (pendingFixes st) st) as (_ & Hp & _).
    destruct (applyFixes w (pendingFixes st) st) as [[e | []] st1]; cbn [snd] in *.
    + left. exact Hp.
    + destruct (buildFixSummary (pendingFixes st1)); [left; exact Hp | right; reflexivity].
  - rewrite Heq. right. reflexivity.
  - rewrite Heq. left. apply chatBranch_keeps.
Qed.

End Handler.

(** ** Outcomes of a confirmation *)

Section Confirmed.

Context `{engine : Engine}.

(** X10. A confirmation of a proposal whose entries can all be written
    and summarised writes every file, posts the success message with the
    summary as its only reply and leaves nothing pending; the history is not
    touched. *)
Theorem confirmation_applies_in_full w msg st root files targets summary :
  type msg = "userMessage" -> hasClient w ->
  isCodeReviewRequest (text msg) = false ->
  existsb (String.eqb (toLowerCase (text msg))) ["yes"; "apply"] = true ->
  workspaceFolder w = Some root ->
  prop (pendingFixes st) "files" = inr (Some (JArr files)) ->
  Forall2 (writable root) files targets ->
  Forall (fun t => writeFault w (fst t) = None) targets ->
  buildFixSummary (pendingFixes st) = inr summary ->
  onDidReceiveMessage w msg st
  = withPending
      (withReply (withFs st (written targets (fs st)))
         (Some ("✅ Fixes applied successfully." +:+ nl +:+ nl +:+ "Summary:" +:+ nl
                +:+ summary)))
      JNull.
Proof.
  intros Ht Hc Hr Hy Hroot Hfiles Hall Hfaults Hsum.
  pose proof (truthy_of_files _ _ Hfiles) as Hp.
  rewrite onDidReceiveMessage_confirm by assumption.
  unfold tryCatch. rewrite applyBranch_run.
  rewrite (applyFixes_all_writable _ _ _ _ _ _ Hroot Hfiles Hall Hfaults).
  cbn [pendingFixes withFs]. rewrite Hsum. reflexivity.
Qed.

(** X11. Without a workspace folder a confirmation writes nothing: its
    only effect is the reply "No workspace folder found.", and the proposal
    stays pending. *)
Theorem confirmation_without_folder w msg st :
  type msg = "userMessage" -> hasClient w ->
  isCodeReviewRequest (text msg) = false ->
  truthy (Some (pendingFixes st)) = true ->
  existsb (String.eqb (toLowerCase (text msg))) ["yes"; "apply"] = true ->
  workspaceFolder w = None ->
  onDidReceiveMessage w msg st
  = withReply st (Some "⚠️ Error: No workspace folder found.").
Proof.
  intros Ht Hc Hr Hp Hy Hroot.
  rewrite onDidReceiveMessage_confirm by assumption.
  unfold tryCatch. rewrite applyBranch_run. unfold applyFixes. rewrite Hroot.
  reflexivity.
Qed.

Lemma applyFix_falsy w root file fixedCode path st :
  prop file "fixedCode" = inr fixedCode -> truthy fixedCode = false ->
  prop file "path" = inr path ->
  applyFix w root file st = (inl (Error ("Invalid fixedCode for " +:+ toStrV path)), st).
Proof.
  intros Hcode Hf Hpath. unfold applyFix, bind. rewrite Hcode. simpl.
  rewrite Hf, Hpath. reflexivity.
Qed.

(** X12. A fix cannot empty a file: an entry whose [fixedCode] is the
    empty text is refused like one without text.  [applyFixes] throws
    "Invalid fixedCode for <path>" at it, after the writes of the entries
    before it and before any write of the entries after it. *)
Theorem applyFixes_refuses_empty_code w data root before bad after targets path st :
  workspaceFolder w = Some root ->
  prop data "files" = inr (Some (JArr (before ++ bad :: after))) ->
  Forall2 (writable root) before targets ->
  Forall (fun t => writeFault w (fst t) = None) targets ->
  prop bad "fixedCode" = inr (Some (JStr "")) ->
  prop bad "path" = inr path ->
  applyFixes w data st
  = (inl (Error ("Invalid fixedCode for " +:+ toStrV path)),
     withFs st (written targets (fs st))).
Proof.
  intros Hroot Hfiles Hbefore Hfaults Hcode Hpath.
  unfold applyFixes, bind. rewrite Hroot, Hfiles. simpl.
  rewrite forOf_app, (forOf_applyFix_writable _ _ _ _ _ Hbefore Hfaults).
  simpl. unfold bind.
  rewrite (applyFix_falsy _ _ _ _ _ _ Hcode eq_refl Hpath). reflexivity.
Qed.

Lemma written_lookup targets (files : gmap string string) uri :
  written targets files !! uri =
  match lastWrite targets uri with
  | Some content => Some content
  | None => files !! uri
  end.
Proof.
  revert files. induction targets as [| t rest IH]; intros files; [reflexivity |].
  unfold written in *. cbn [foldl lastWrite]. rewrite IH.
  destruct (lastWrite rest uri); [reflexivity |].
  destruct (String.eqb_spec (fst t) uri) as [-> | Hne].
  - apply lookup_insert_eq.
  - apply lookup_insert_ne. exact Hne.
Qed.

(** X13. After [applyFixes] wrote every entry, a file of the workspace
    holds the [fixedCode] of the last entry written to it, and a file no
    entry names is as it was. *)
Theorem applyFixes_last_write_wins w data root files targets st uri :
  workspaceFolder w = Some root ->
  prop data "files" = inr (Some (JArr files)) ->
  Forall2 (writable root) files targets ->
  Forall (fun t => writeFault w (fst t) = None) targets ->
  fst (applyFixes w data st) = inr tt
  /\ fs (snd (applyFixes w data st)) !! uri =
     match lastWrite targets uri with
     | Some content => Some content
     | None => fs st !! uri
     end.
Proof.
  intros Hroot Hfiles Hall Hfaults.
  rewrite (applyFixes_all_writable _ _ _ _ _ _ Hroot Hfiles Hall Hfaults).
  split; [reflexivity |]. apply written_lookup.
Qed.

(** X14. Closing the panel does not withdraw a proposal: a confirmation
    received after [onDidDispose] writes the files of the proposal that was
    pending before the panel was closed. *)
Theorem confirmation_after_dispose w msg st root files targets summary :
  type msg = "userMessage" -> hasClient w ->
  isCodeReviewRequest (text msg) = false ->
  existsb (String.eqb (toLowerCase (text msg))) ["yes"; "apply"] = true ->
  workspaceFolder w = Some root ->
  prop (pendingFixes st) "files" = inr (Some (JArr files)) ->
  Forall2 (writable root) files targets ->
  Forall (fun t => writeFault w (fst t) = None) targets ->
  buildFixSummary (pendingFixes st) = inr summary ->
  let st' := onDidReceiveMessage w msg (onDidDispose st) in
  fs st' = written targets (fs st)
  /\ pendingFixes st' = JNull
  /\ history st' = [].
Proof.
  intros Ht Hc Hr Hy Hroot Hfiles Hall Hfaults Hsum st'. unfold st'.
  pose proof (truthy_of_files _ _ Hfiles) as Hp.
  rewrite onDidReceiveMessage_confirm by assumption.
  unfold tryCatch. rewrite applyBranch_run.
  rewrite (applyFixes_all_writable w (pendingFixes (onDidDispose st)) root files targets
             (onDidDispose st) Hroot Hfiles Hall Hfaults).
  cbn [pendingFixes withFs onDidDispose]. rewrite Hsum. repeat split.
Qed.

End Confirmed.

(** ** Outcomes of a review *)

Section Reviewed.

Context `{engine : Engine}.

(** X15. A review whose answer parses to a proposal with files makes that
    proposal the pending one, whatever was pending before, and asks the
    user to confirm: the replies are the two progress messages and the
    question. *)
Theorem review_installs_proposal w msg st uris files raw cleanJson parsed :
  type msg = "userMessage" -> hasClient w ->
  isCodeReviewRequest (text msg) = true ->
  findFiles w = inr uris ->
  readAll w (fs st) (take 10 uris) = inr files ->
  files <> [] ->
  generateContent w [Turn user (buildReviewPrompt files)] = inr raw ->
  extractJson raw = inr cleanJson ->
  JSON_parse cleanJson = Some parsed ->
  emptyProposal parsed = false ->
  let st' := onDidReceiveMessage w msg st in
  pendingFixes st' = parsed
  /\ gateOf st' = AwaitingConfirmation
  /\ posted st' =
     posted st ++
       [ Some "Checking your code, please wait...";
         Some "Reviewing workspace files...";
         Some "I found issues and prepared fixes. Do you want me to apply them? (Yes / No)" ].
Proof.
  intros Ht Hc Hr Hfind Hread Hne Hgen Hextract Hparse Hempty st'. unfold st'.
  rewrite onDidReceiveMessage_review by assumption.
  unfold tryCatch. rewrite reviewBranch_run. cbv zeta.
  rewrite Hfind, Hread. destruct files as [| file files]; [contradiction |].
  rewrite Hgen, Hextract, Hparse. cbn [snd].
  split; [| split].
  - unfold afterParse. unfold emptyProposal in Hempty.
    destruct (prop parsed "files") as [e | files']; [discriminate |].
    rewrite Hempty. reflexivity.
  - rewrite gateOf_afterParse, Hempty. reflexivity.
  - unfold afterParse. unfold emptyProposal in Hempty.
    destruct (prop parsed "files") as [e | files']; [discriminate |].
    rewrite Hempty. cbn [posted withReply withPending].
    rewrite <- !app_assoc. reflexivity.
Qed.

(** X16. When the answer of a review holds no JSON object, or its JSON
    does not parse, the handler does not fail: it posts the answer as it
    came, after the two progress messages, and changes nothing else (what
    was pending stays pending). *)
Theorem review_falls_back_to_raw w msg st uris files raw :
  type msg = "userMessage" -> hasClient w ->
  isCodeReviewRequest (text msg) = true ->
  findFiles w = inr uris ->
  readAll w (fs st) (take 10 uris) = inr files ->
  files <> [] ->
  generateContent w [Turn user (buildReviewPrompt files)] = inr raw ->
  (exists e, extractJson raw = inl e)
  \/ (exists cleanJson, extractJson raw = inr cleanJson /\ JSON_parse cleanJson = None) ->
  onDidReceiveMessage w msg st
  = withReply
      (withReply (withReply st (Some "Checking your code, please wait..."))
         (Some "Reviewing workspace files..."))
      raw.
Proof.
  intros Ht Hc Hr Hfind Hread Hne Hgen Hbad.
  rewrite onDidReceiveMessage_review by assumption.
  unfold tryCatch. rewrite reviewBranch_run. cbv zeta.
  rewrite Hfind, Hread. destruct files as [| file files]; [contradiction |].
  rewrite Hgen. destruct Hbad as [[e He] | (cleanJson & He & Hp)].
  - rewrite He. reflexivity.
  - rewrite He, Hp. reflexivity.
Qed.

(** X17. A review of a workspace in which the search finds no file ends
    with the reply "No supported code files found in this workspace.": the
    state it leaves does not depend on the model, and nothing but the
    replies changes. *)
Theorem review_of_empty_workspace w msg st :
  type msg = "userMessage" -> hasClient w ->
  isCodeReviewRequest (text msg) = true ->
  findFiles w = inr [] ->
  onDidReceiveMessage w msg st
  = withReply
      (withReply (withReply st (Some "Checking your code, please wait..."))
         (Some "Reviewing workspace files..."))
      (Some "No supported code files found in this workspace.").
Proof.
  intros Ht Hc Hr Hfind.
  rewrite onDidReceiveMessage_review by assumption.
  unfold tryCatch. rewrite reviewBranch_run. cbv zeta.
  rewrite Hfind. reflexivity.
Qed.

Lemma readAll_readable w (files : gmap string string) uris :
  Forall (fun uri => readFault w uri = None /\ is_Some (files !! uri)) uris ->
  exists read,
    readAll w files uris = inr read
    /\ List.map fst read = uris
    /\ Forall (fun f => files !! fst f = Some (snd f)) read.
Proof.
  induction 1 as [| uri uris [Hfault [content Hcontent]] _ (read & Hread & Hmap & Hall)].
  - exists []. repeat split. constructor.
  - exists ((uri, content) :: read). unfold readAll in *. cbn [mapE].
    rewrite Hfault, Hcontent, Hread. split; [reflexivity |].
    split; [cbn; rewrite Hmap; reflexivity |].
    constructor; [exact Hcontent | exact Hall].
Qed.

(** X18. When each of the first ten files found can be read,
    [readWorkspaceFiles] returns exactly these files, in the order of the
    search and each with its content, whatever comes after the tenth; it
    changes nothing. *)
Theorem readWorkspaceFiles_first_ten w st uris :
  findFiles w = inr uris ->
  Forall (fun uri => readFault w uri = None /\ is_Some (fs st !! uri)) (take 10 uris) ->
  exists read,
    readWorkspaceFiles w st = (inr read, st)
    /\ List.map fst read = take 10 uris
    /\ length read <= 10
    /\ Forall (fun f => fs st !! fst f = Some (snd f)) read.
Proof.
  intros Hfind Hall. rewrite readWorkspaceFiles_run, Hfind.
  destruct (readAll_readable _ _ _ Hall) as (read & Hread & Hmap & Hcontent).
  exists read. rewrite Hread. split; [reflexivity |]. split; [exact Hmap |].
  split; [| exact Hcontent].
  rewrite <- (length_map fst), Hmap, length_take. lia.
Qed.

Lemma readAll_app w (files : gmap string string) a b :
  readAll w files (a ++ b) =
  match readAll w files a with
  | inl e => inl e
  | inr ra => match readAll w files b with
              | inl e => inl e
              | inr rb => inr (ra ++ rb)
              end
  end.
Proof.
  unfold readAll. induction a as [| x a IH]; cbn [mapE app].
  - destruct (mapE _ b); reflexivity.
  - destruct (readFault w x); [reflexivity |].
    destruct (files !! x); [| reflexivity].
    rewrite IH. destruct (mapE _ a); [reflexivity |].
    destruct (mapE _ b); reflexivity.
Qed.

(** X19. One file that cannot be read fails the whole snapshot: when a
    file among the first ten found cannot be read and the files before it
    can, [readWorkspaceFiles] throws the error of that read and returns no
    file. *)
Theorem readWorkspaceFiles_all_or_nothing w st uris readable bad rest e :
  findFiles w = inr uris ->
  take 10 uris = readable ++ bad :: rest ->
  Forall (fun uri => readFault w uri = None /\ is_Some (fs st !! uri)) readable ->
  readFile w bad st = (inl e, st) ->
  readWorkspaceFiles w st = (inl e, st).
Proof.
  intros Hfind Htake Hall Hbad. rewrite readWorkspaceFiles_run, Hfind, Htake.
  rewrite readAll_app.
  destruct (readAll_readable _ _ _ Hall) as (read & -> & _).
  rewrite readFile_run in Hbad. injection Hbad as Hbad.
  unfold readAll. cbn [mapE].
  destruct (readFault w bad) as [e' |]; [congruence |].
  destruct (fs st !! bad); [discriminate |]. congruence.
Qed.

End Reviewed.

(** ** Chat turns, rejections and sessions *)

Section Conversation.

Context `{engine : Engine}.

(** X20. Without an API key (none configured, or an empty one) every
    user message, whatever it asks, is answered by the one error reply that
    asks for the key, and nothing else changes: no file, no history entry,
    no pending proposal. *)
Theorem missing_key_only_reports w msg st :
  type msg = "userMessage" ->
  apiKey w = None \/ apiKey w = Some "" ->
  onDidReceiveMessage w msg st
  = withReply st
      (Some "⚠️ Error: Gemini API key is not set. Please add it in CodeMedic settings.").
Proof.
  intros Ht Hkey. rewrite (onDidReceiveMessage_user _ _ _ Ht).
  unfold tryCatch, handleMessage, bind, getGeminiClient.
  destruct Hkey as [-> | ->]; reflexivity.
Qed.

Lemma trimmed_keeps_tail (h tail : list turn) :
  length tail <= 2 * MAX_TURNS ->
  exists front, trimmed (h ++ tail) = front ++ tail.
Proof.
  intros Hlen. unfold trimmed.
  destruct (Nat.ltb_spec (MAX_TURNS * 2) (length (h ++ tail))) as [Hlt | Hge].
  - exists (drop (length (h ++ tail) - MAX_TURNS * 2) h).
    rewrite length_app in *. rewrite drop_app_le by lia. reflexivity.
  - exists h. reflexivity.
Qed.

(** X21. A chat message the model answers adds one exchange to the
    history, the user turn and the reply, trimmed to the last
    [2 * MAX_TURNS] entries, and posts the reply.  The reply is the model's
    text, or "Sorry, I could not generate a response." when the model gave
    no text or an empty one. *)
Theorem chat_turn_answered w msg st result :
  type msg = "userMessage" -> hasClient w ->
  isCodeReviewRequest (text msg) = false ->
  truthy (Some (pendingFixes st)) = false
  \/ (existsb (String.eqb (toLowerCase (text msg))) ["yes"; "apply"] = false
      /\ toLowerCase (text msg) <> "no") ->
  generateContent w (history st ++ [Turn user (text msg)]) = inr result ->
  let st' := onDidReceiveMessage w msg st in
  let reply :=
    match result with
    | Some (String a s) => String a s
    | _ => "Sorry, I could not generate a response."
    end in
  st' = withReply
          (withHistory st (trimmed (history st ++ [Turn user (text msg); Turn model reply])))
          (Some reply)
  /\ (exists front, history st' = front ++ [Turn user (text msg); Turn model reply])
  /\ length (history st') <= 2 * MAX_TURNS.
Proof.
  intros Ht Hc Hr Hp Hgen st' reply.
  assert (Hst' : st' = withReply
            (withHistory st
               (trimmed (history st ++ [Turn user (text msg); Turn model reply])))
            (Some reply)).
  { unfold st'. rewrite onDidReceiveMessage_chat by assumption.
    unfold tryCatch. rewrite chatBranch_run. cbv zeta. rewrite Hgen.
    rewrite <- app_assoc. unfold reply. destruct result as [[| a s] |]; reflexivity. }
  split; [exact Hst' |]. rewrite Hst'. cbn [history withReply withHistory]. split.
  - apply trimmed_keeps_tail. unfold MAX_TURNS. simpl. lia.
  - apply trimmed_length.
Qed.

(** X22. A second "no" is a chat message: the first "no" received while a
    proposal is pending drops the proposal, without writing a file or
    calling the model; the next "no" finds nothing pending and goes to the
    model like any chat message, its exchange entering the history. *)
Theorem second_no_is_chat w1 w2 msg st result :
  type msg = "userMessage" -> hasClient w1 -> hasClient w2 ->
  isCodeReviewRequest (text msg) = false ->
  toLowerCase (text msg) = "no" ->
  truthy (Some (pendingFixes st)) = true ->
  generateContent w2 (history st ++ [Turn user (text msg)]) = inr result ->
  let st1 := onDidReceiveMessage w1 msg st in
  let st2 := onDidReceiveMessage w2 msg st1 in
  st1 = withReply (withPending st JNull) (Some "Okay, fixes were not applied.")
  /\ pendingFixes st2 = JNull
  /\ fs st2 = fs st
  /\ history st2
     = trimmed (history st ++ [Turn user (text msg); Turn model (replyOf result)])
  /\ posted st2
     = posted st ++ [Some "Okay, fixes were not applied."; Some (replyOf result)].
Proof.
  intros Ht Hc1 Hc2 Hr Hno Hp Hgen st1 st2.
  assert (Hst1 : st1 = withReply (withPending st JNull)
                         (Some "Okay, fixes were not applied.")).
  { unfold st1. rewrite (onDidReceiveMessage_user _ _ _ Ht). unfold tryCatch.
    rewrite handleMessage_reject by assumption. reflexivity. }
  split; [exact Hst1 |].
  assert (Hst2 : st2 = snd (tryCatch (chatBranch w2 msg) reportError st1)).
  { unfold st2. apply onDidReceiveMessage_chat; try assumption.
    left. rewrite Hst1. reflexivity. }
  rewrite Hst2. unfold tryCatch. rewrite chatBranch_run. cbv zeta.
  rewrite Hst1. cbn [history withReply withPending]. rewrite Hgen.
  cbn [snd pendingFixes fs history posted withReply withHistory withPending].
  rewrite <- !app_assoc. repeat split.
Qed.

(** How the history moves when one message is handled. *)
Lemma history_step w msg st :
  let st' := onDidReceiveMessage w msg st in
  history st' = history st
  \/ (exists e, generateContent w (history st ++ [Turn user (text msg)]) = inl e)
  \/ (exists result,
        history st'
        = trimmed (history st ++ [Turn user (text msg); Turn model (replyOf result)])).
Proof.
  intros st'. unfold st'.
  destruct (onDidReceiveMessage_cases w msg st)
    as [[_ Heq] | [(_ & _ & e & Heq) | (Ht & Hc & Hcase)]];
    [left; rewrite Heq; reflexivity.. |].
  destruct Hcase as [(Hr & _) | [(_ & Hp & Hy & _) | [(_ & Hp & Hn & _) | (_ & _ & Heq)]]].
  - left. apply gate_messages_keep_history_aux; auto.
  - left. apply gate_messages_keep_history_aux; auto.
  - left. apply gate_messages_keep_history_aux; auto.
  - rewrite Heq. unfold tryCatch. rewrite chatBranch_run. cbv zeta.
    destruct (generateContent w (history st ++ [Turn user (text msg)])) as [e | result].
    + right. left. eauto.
    + right. right. exists result. cbn [snd history withReply withHistory].
      rewrite <- app_assoc. reflexivity.
Qed.

(** X23. As long as the model answers, the history stays well formed:
    over any run of handled messages in which no model call fails, a
    history made of whole exchanges and of at most [2 * MAX_TURNS] entries
    remains so. *)
Theorem answered_sessions_keep_history_paired steps st :
  Forall (fun step : world * webviewMessage =>
            forall h, exists result, generateContent (fst step) h = inr result) steps ->
  paired (history st) = true ->
  length (history st) <= 2 * MAX_TURNS ->
  paired (history (session steps st)) = true
  /\ length (history (session steps st)) <= 2 * MAX_TURNS.
Proof.
  intros Hsteps. revert st.
  induction Hsteps as [| [w msg] steps Hanswer _ IH]; intros st Hp Hlen; [auto |].
  cbn [session]. cbn [fst] in Hanswer.
  destruct (history_step w msg st) as [Heq | [[e He] | [result Heq]]].
  - apply IH; rewrite Heq; assumption.
  - destruct (Hanswer (history st ++ [Turn user (text msg)])) as [r Hr]. congruence.
  - apply IH; rewrite Heq.
    + destruct (trimmed_paired_split
                  (history st ++ [Turn user (text msg); Turn model (replyOf result)]))
        as (_ & _ & _ & Hkept); [| exact Hkept].
      rewrite (paired_app _ _ Hp). reflexivity.
    + apply trimmed_length.
Qed.

End Conversation.

(** ** The further properties at work *)

Lemma demoWorld_hasClient uris answer : hasClient (demoWorld uris answer).
Proof. split; [exists "key"; split; [reflexivity | discriminate] | reflexivity]. Qed.

Lemma extractJson_strips_prose_witness :
  extractJson (Some emptyAnswer) = inr ("{" +:+ quoted "files" +:+ ":[]}").
Proof.
  apply (extractJson_strips_prose "prefix " (quoted "files" +:+ ":[]") " suffix");
    reflexivity.
Defined.

Lemma extractJson_crossed_braces_witness : extractJson (Some "} {") = inr "".
Proof.
  apply (extractJson_crossed_braces "} {" 2 0); [reflexivity | reflexivity | lia].
Defined.

Lemma prompt_shows_every_file_witness :
  includes (fileBlock ("/ws/a.js", "var x")) (buildReviewPrompt [("/ws/a.js", "var x")]) = true.
Proof. apply prompt_shows_every_file. left. reflexivity. Defined.

Lemma summaryLine_basename_witness :
  summaryLine (JObj nestedEntryProps) = inr ("• " +:+ "a.js" +:+ " – " +:+ "x, y").
Proof.
  apply (summaryLine_basename nestedEntryProps "/" "src/lib" "a.js"
           [JStr "x"; JStr "y"; JStr "z"]).
  - left. reflexivity.
  - reflexivity.
  - reflexivity.
  - reflexivity.
Defined.

Lemma trimmed_drops_whole_exchanges_witness :
  exists dropped,
    sevenExchanges = dropped ++ trimmed sevenExchanges
    /\ paired dropped = true
    /\ paired (trimmed sevenExchanges) = true.
Proof. apply trimmed_drops_whole_exchanges. reflexivity. Defined.

Lemma writes_need_confirmation_witness :
  let w := demoWorld [] (inr None) in
  let msg := userMessage "yes" in
  let st := pendingState oneFile in
  type msg = "userMessage"
  /\ hasClient w
  /\ @isCodeReviewRequest demoEngine (text msg) = false
  /\ truthy (Some (pendingFixes st)) = true
  /\ existsb (String.eqb (@toLowerCase demoEngine (text msg))) ["yes"; "apply"] = true.
Proof.
  intros w msg st.
  apply (@writes_need_confirmation demoEngine w msg st).
  intros Heq. apply (f_equal (fun m : gmap string string => m !! "/ws/a.js")) in Heq.
  vm_compute in Heq. discriminate.
Defined.

Lemma gate_messages_keep_history_witness :
  history (@onDidReceiveMessage demoEngine (reviewWorld emptyAnswer)
             (userMessage "Review my code") (withPending oneFileWorkspace oneFile))
  = history (withPending oneFileWorkspace oneFile).
Proof. apply (@gate_messages_keep_history demoEngine). left. reflexivity. Defined.

Lemma only_review_installs_proposal_witness :
  let st := pendingState oneFile in
  let st' := @onDidReceiveMessage demoEngine (demoWorld [] (inr (Some "hi"))) (userMessage "hello") st in
  pendingFixes st' = pendingFixes st \/ pendingFixes st' = JNull.
Proof. apply (@only_review_installs_proposal demoEngine). reflexivity. Defined.

Lemma confirmation_applies_in_full_witness :
  @onDidReceiveMessage demoEngine (demoWorld [] (inr None)) (userMessage "Apply")
    (pendingState oneFile)
  = withPending
      (withReply
         (withFs (pendingState oneFile)
            (written [("/ws/a.js", "console.log(1)")] (fs (pendingState oneFile))))
         (Some ("✅ Fixes applied successfully." +:+ nl +:+ nl +:+ "Summary:" +:+ nl
                +:+ "• a.js – x")))
      JNull.
Proof.
  apply (@confirmation_applies_in_full demoEngine (demoWorld [] (inr None))
           (userMessage "Apply") (pendingState oneFile) "/ws"
           [fixEntry "a.js" ["x"] (JStr "console.log(1)")]
           [("/ws/a.js", "console.log(1)")] "• a.js – x").
  - reflexivity.
  - apply demoWorld_hasClient.
  - reflexivity.
  - reflexivity.
  - reflexivity.
  - reflexivity.
  - constructor; [| constructor].
    split; [reflexivity |]. split; [discriminate |].
    exists (Some (JStr "a.js")). split; reflexivity.
  - constructor; [reflexivity | constructor].
  - reflexivity.
Defined.

Lemma confirmation_without_folder_witness :
  @onDidReceiveMessage demoEngine noFolderWorld (userMessage "yes") (pendingState oneFile)
  = withReply (pendingState oneFile) (Some "⚠️ Error: No workspace folder found.").
Proof.
  apply (@confirmation_without_folder demoEngine); try reflexivity.
  split; [exists "key"; split; [reflexivity | discriminate] | reflexivity].
Defined.

Lemma applyFixes_refuses_empty_code_witness :
  @applyFixes demoEngine (demoWorld [] (inr None)) emptyCode (pendingState emptyCode)
  = (inl (Error ("Invalid fixedCode for " +:+ "a.js")),
     withFs (pendingState emptyCode) (written [] (fs (pendingState emptyCode)))).
Proof.
  apply (@applyFixes_refuses_empty_code demoEngine (demoWorld [] (inr None)) emptyCode "/ws"
           [] (fixEntry "a.js" ["x"] (JStr "")) [] [] (Some (JStr "a.js"))
           (pendingState emptyCode)).
  - reflexivity.
  - reflexivity.
  - constructor.
  - constructor.
  - reflexivity.
  - reflexivity.
Defined.

Lemma applyFixes_last_write_wins_witness :
  let w := demoWorld [] (inr None) in
  let st := withPending oneFileWorkspace sameFileTwice in
  fst (@applyFixes demoEngine w sameFileTwice st) = inr tt
  /\ fs (snd (@applyFixes demoEngine w sameFileTwice st)) !! "/ws/a.js" =
     match lastWrite [("/ws/a.js", "first"); ("/ws/a.js", "second")] "/ws/a.js" with
     | Some content => Some content
     | None => fs st !! "/ws/a.js"
     end.
Proof.
  intros w st.
  apply (@applyFixes_last_write_wins demoEngine w sameFileTwice "/ws"
           [fixEntry "a.js" ["x"] (JStr "first"); fixEntry "a.js" ["y"] (JStr "second")]
           [("/ws/a.js", "first"); ("/ws/a.js", "second")] st "/ws/a.js").
  - reflexivity.
  - reflexivity.
  - repeat constructor; try discriminate;
      exists (Some (JStr "a.js")); split; reflexivity.
  - repeat constructor.
Defined.

Lemma confirmation_after_dispose_witness :
  let st := pendingState oneFile in
  let st' := @onDidReceiveMessage demoEngine (demoWorld [] (inr None)) (userMessage "yes")
               (onDidDispose st) in
  fs st' = written [("/ws/a.js", "console.log(1)")] (fs st)
  /\ pendingFixes st' = JNull
  /\ history st' = [].
Proof.
  intros st.
  apply (@confirmation_after_dispose demoEngine (demoWorld [] (inr None))
           (userMessage "yes") st "/ws"
           [fixEntry "a.js" ["x"] (JStr "console.log(1)")]
           [("/ws/a.js", "console.log(1)")] "• a.js – x").
  - reflexivity.
  - apply demoWorld_hasClient.
  - reflexivity.
  - reflexivity.
  - reflexivity.
  - reflexivity.
  - constructor; [| constructor].
    split; [reflexivity |]. split; [discriminate |].
    exists (Some (JStr "a.js")). split; reflexivity.
  - constructor; [reflexivity | constructor].
  - reflexivity.
Defined.

Lemma review_installs_proposal_witness :
  let st' := @onDidReceiveMessage demoEngine (reviewWorld fixAnswer)
               (userMessage "Review my code") (withPending oneFileWorkspace emptyCode) in
  pendingFixes st' = fixAnswerParsed
  /\ gateOf st' = AwaitingConfirmation
  /\ posted st' =
     posted (withPending oneFileWorkspace emptyCode) ++
       [ Some "Checking your code, please wait...";
         Some "Reviewing workspace files...";
         Some "I found issues and prepared fixes. Do you want me to apply them? (Yes / No)" ].
Proof.
  apply (@review_installs_proposal demoEngine (reviewWorld fixAnswer)
           (userMessage "Review my code") (withPending oneFileWorkspace emptyCode)
           ["/ws/a.js"] [("/ws/a.js", "var x")] (Some fixAnswer) fixAnswerJson
           fixAnswerParsed).
  - reflexivity.
  - apply demoWorld_hasClient.
  - reflexivity.
  - reflexivity.
  - reflexivity.
  - discriminate.
  - reflexivity.
  - reflexivity.
  - reflexivity.
  - reflexivity.
Defined.

Lemma review_falls_back_to_raw_witness :
  @onDidReceiveMessage demoEngine (reviewWorld "Looks fine to me.")
    (userMessage "Review my code") (withPending oneFileWorkspace oneFile)
  = withReply
      (withReply
         (withReply (withPending oneFileWorkspace oneFile)
            (Some "Checking your code, please wait..."))
         (Some "Reviewing workspace files..."))
      (Some "Looks fine to me.").
Proof.
  apply (@review_falls_back_to_raw demoEngine (reviewWorld "Looks fine to me.")
           (userMessage "Review my code") (withPending oneFileWorkspace oneFile)
           ["/ws/a.js"] [("/ws/a.js", "var x")] (Some "Looks fine to me.")).
  - reflexivity.
  - apply demoWorld_hasClient.
  - reflexivity.
  - reflexivity.
  - reflexivity.
  - discriminate.
  - reflexivity.
  - left. eexists. reflexivity.
Defined.

Lemma review_of_empty_workspace_witness :
  @onDidReceiveMessage demoEngine (demoWorld [] (inl (Error "unreachable")))
    (userMessage "check this") initialState
  = withReply
      (withReply (withReply initialState (Some "Checking your code, please wait..."))
         (Some "Reviewing workspace files..."))
      (Some "No supported code files found in this workspace.").
Proof.
  apply (@review_of_empty_workspace demoEngine).
  - reflexivity.
  - apply demoWorld_hasClient.
  - reflexivity.
  - reflexivity.
Defined.

Lemma readWorkspaceFiles_first_ten_witness :
  exists read,
    readWorkspaceFiles (reviewWorld emptyAnswer) oneFileWorkspace
    = (inr read, oneFileWorkspace)
    /\ List.map fst read = take 10 ["/ws/a.js"]
    /\ length read <= 10
    /\ Forall (fun f => fs oneFileWorkspace !! fst f = Some (snd f)) read.
Proof.
  apply (readWorkspaceFiles_first_ten (reviewWorld emptyAnswer) oneFileWorkspace ["/ws/a.js"]).
  - reflexivity.
  - constructor; [| constructor].
    split; [reflexivity | exists "var x"; reflexivity].
Defined.

Lemma readWorkspaceFiles_all_or_nothing_witness :
  readWorkspaceFiles lockedFileWorld oneFileWorkspace
  = (inl (Error "EACCES"), oneFileWorkspace).
Proof.
  apply (readWorkspaceFiles_all_or_nothing lockedFileWorld oneFileWorkspace
           ["/ws/a.js"; "/ws/b.js"] ["/ws/a.js"] "/ws/b.js" [] (Error "EACCES")).
  - reflexivity.
  - reflexivity.
  - constructor; [| constructor].
    split; [reflexivity | exists "var x"; reflexivity].
  - reflexivity.
Defined.

Lemma missing_key_only_reports_witness :
  @onDidReceiveMessage demoEngine noKeyWorld (userMessage "yes") (pendingState oneFile)
  = withReply (pendingState oneFile)
      (Some "⚠️ Error: Gemini API key is not set. Please add it in CodeMedic settings.").
Proof.
  apply (@missing_key_only_reports demoEngine); [reflexivity | right; reflexivity].
Defined.

Lemma chat_turn_answered_witness :
  let w := demoWorld [] (inr (Some "")) in
  let msg := userMessage "hello" in
  let st' := @onDidReceiveMessage demoEngine w msg initialState in
  let reply := "Sorry, I could not generate a response." in
  st' = withReply
          (withHistory initialState
             (trimmed (history initialState ++ [Turn user (text msg); Turn model reply])))
          (Some reply)
  /\ (exists front, history st' = front ++ [Turn user (text msg); Turn model reply])
  /\ length (history st') <= 2 * MAX_TURNS.
Proof.
  intros w msg.
  apply (@chat_turn_answered demoEngine w msg initialState (Some "")).
  - reflexivity.
  - apply demoWorld_hasClient.
  - reflexivity.
  - left. reflexivity.
  - reflexivity.
Defined.

Lemma second_no_is_chat_witness :
  let w := demoWorld [] (inr (Some "Anything else?")) in
  let msg := userMessage "No" in
  let st := pendingState oneFile in
  let st1 := @onDidReceiveMessage demoEngine w msg st in
  let st2 := @onDidReceiveMessage demoEngine w msg st1 in
  st1 = withReply (withPending st JNull) (Some "Okay, fixes were not applied.")
  /\ pendingFixes st2 = JNull
  /\ fs st2 = fs st
  /\ history st2
     = trimmed (history st ++ [Turn user (text msg);
                               Turn model (replyOf (Some "Anything else?"))])
  /\ posted st2
     = posted st ++ [Some "Okay, fixes were not applied.";
                     Some (replyOf (Some "Anything else?"))].
Proof.
  intros w msg st.
  apply (@second_no_is_chat demoEngine w w msg st (Some "Anything else?")).
  - reflexivity.
  - apply demoWorld_hasClient.
  - apply demoWorld_hasClient.
  - reflexivity.
  - reflexivity.
  - reflexivity.
  - reflexivity.
Defined.

Lemma answered_sessions_keep_history_paired_witness :
  paired (history (@session demoEngine (repeat (answeredStep "q" "a") 8) initialState)) = true
  /\ length (history (@session demoEngine (repeat (answeredStep "q" "a") 8) initialState))
     <= 2 * MAX_TURNS.
Proof.
  apply (@answered_sessions_keep_history_paired demoEngine).
  - repeat (constructor; [intros h; eexists; reflexivity |]). constructor.
  - reflexivity.
  - simpl. lia.
Defined.

(** ** A review the model does not answer *)

Section ReviewFailure.

Context `{engine : Engine}.

(** X24. When the model call of a review fails, the user sees the two
    progress messages and then the error, and nothing else changes: what
    was pending stays pending, no file and no history entry is touched. *)
Theorem review_model_failure w msg st uris files e :
  type msg = "userMessage" -> hasClient w ->
  isCodeReviewRequest (text msg) = true ->
  findFiles w = inr uris ->
  readAll w (fs st) (take 10 uris) = inr files ->
  files <> [] ->
  generateContent w [Turn user (buildReviewPrompt files)] = inl e ->
  onDidReceiveMessage w msg st
  = withReply
      (withReply (withReply st (Some "Checking your code, please wait..."))
         (Some "Reviewing workspace files..."))
      (Some ("⚠️ Error: " +:+ message e)).
Proof.
  intros Ht Hc Hr Hfind Hread Hne Hgen.
  rewrite onDidReceiveMessage_review by assumption.
  unfold tryCatch. rewrite reviewBranch_run. cbv zeta.
  rewrite Hfind, Hread. destruct files as [| file files]; [contradiction |].
  rewrite Hgen. reflexivity.
Qed.

End ReviewFailure.

Lemma review_model_failure_witness :
  @onDidReceiveMessage demoEngine (demoWorld ["/ws/a.js"] (inl (Error "fetch failed")))
    (userMessage "Review my code") (withPending oneFileWorkspace oneFile)
  = withReply
      (withReply
         (withReply (withPending oneFileWorkspace oneFile)
            (Some "Checking your code, please wait..."))
         (Some "Reviewing workspace files..."))
      (Some ("⚠️ Error: " +:+ "fetch failed")).
Proof.
  apply (@review_model_failure demoEngine (demoWorld ["/ws/a.js"] (inl (Error "fetch failed")))
           (userMessage "Review my code") (withPending oneFileWorkspace oneFile)
           ["/ws/a.js"] [("/ws/a.js", "var x")] (Error "fetch failed")).
  - reflexivity.
  - apply demoWorld_hasClient.
  - reflexivity.
  - reflexivity.
  - reflexivity.
  - discriminate.
  - reflexivity.
Defined.
